(** * use-firebase-auth: the merge-reducer state container and the auth facade

    A shallow embedding of [src/use-reduced-state.tsx] (the reducer behind
    [useReducedState]) and of the provider / hook module that follows it
    ([FirebaseAuthProvider], [useFirebaseAuth] and the facade functions the
    hook returns).

    - A JavaScript object used as a record of optional fields is a
      [gmap string JsVal]: a key may be absent, or present with the value
      [undefined].
    - The firebase/auth SDK is an external collaborator.  Its answers are
      given by an oracle record [Sdk]; every call is appended to a log, and
      every oracle sees the log of the calls made before it.
    - A facade function is an [async function]: its body runs in a small
      state monad over the world (store + call log) and settles a promise;
      the call itself always completes normally with that promise. *)

From stdpp Require Import gmap strings list fin_maps.

(** ** Values held by the state container *)

(** [User]: the opaque handle the SDK hands out. *)
Record User := mkUser { uid : string }.

(** [AuthCredential]: the opaque pending credential carried by an error. *)
Record AuthCredential := mkCredential {
  cred_providerId : string;
  cred_token : string
}.

(** Anything that can be thrown or can reject a promise.  [new Error(msg)]
    has only a message; SDK errors may also carry [code], [email] and
    [credential]. *)
Record JsError := mkJsError {
  message : string;
  code : option string;
  email : option string;
  credential : option AuthCredential
}.

(** [new Error(msg)] *)
Definition Error (msg : string) : JsError :=
  {| message := msg; code := None; email := None; credential := None |}.

Inductive JsVal :=
| VUndefined
| VBool (b : bool)
| VUser (u : User)
| VError (e : JsError).

(** [interface State] / [interface FirebaseAuthState]: every field optional. *)
Abbreviation State := (gmap string JsVal).

(** ** use-reduced-state.tsx *)

(** [(oldState, newState) => ({ ...oldState, ...newState })]: the keys of
    [newState] win, every other key of [oldState] is kept. *)
Definition reducer (oldState newState : State) : State := newState ∪ oldState.

(** [useReducedState(initialState)]: [useReducer] starts from the initial
    state and the dispatcher folds the reducer over the patches it is sent. *)
Definition useReducedState (initialState : State) (patches : list State) : State :=
  foldl reducer initialState patches.

(** The spec's words for the merge, field by field: last writer wins. *)
Definition last_writer_wins (s p1 p2 : State) (field : string) : option JsVal :=
  match p2 !! field with
  | Some v => Some v
  | None =>
      match p1 !! field with
      | Some v => Some v
      | None => s !! field
      end
  end.

(** ** FirebaseAuthProvider *)

(** [x === null ? undefined : x] for a user handle. *)
Definition userOrUndefined (u : option User) : JsVal :=
  match u with
  | None => VUndefined
  | Some u => VUser u
  end.

(** The object literal handed to [useReducedState] at lines 96-100. *)
Definition initialState (firebaseCurrentUser : option User) : State :=
  {[ "user" := userOrUndefined firebaseCurrentUser;
     "loading" := VBool false;
     "firstCheck" := VBool false ]}.

(** JavaScript truthiness of the values a state field can hold. *)
Definition truthy (v : JsVal) : bool :=
  match v with
  | VUndefined => false
  | VBool b => b
  | VUser _ => true
  | VError _ => true
  end.

(** Reading a property: an absent key reads as [undefined]. *)
Definition getField (s : State) (field : string) : JsVal :=
  default VUndefined (s !! field).

(** The patch sent by the [onAuthStateChanged] callback. *)
Definition authStatePatch (user : option User) : State :=
  {[ "loading" := VBool false;
     "user" := userOrUndefined user;
     "firstCheck" := VBool true ]}.

(** The patch [{ loading: true }]. *)
Definition loadingPatch : State := {[ "loading" := VBool true ]}.

(** The patch [{ error: e, loading: false }]. *)
Definition errorPatch (e : JsError) : State :=
  {[ "error" := VError e; "loading" := VBool false ]}.

(** ** The SDK boundary (firebase/auth) *)

(** [enum SIGNIN_PROVIDERS] *)
Module SIGNIN_PROVIDERS.
Definition PASSWORD := "password".
Definition GOOGLE := "google".
Definition FACEBOOK := "facebook".
Definition TWITTER := "twitter".
Definition GITHUB := "github".
Definition MICROSOFT := "microsoft".
Definition YAHOO := "yahoo".
Definition all : list string :=
  [PASSWORD; GOOGLE; FACEBOOK; TWITTER; GITHUB; MICROSOFT; YAHOO].
End SIGNIN_PROVIDERS.

(** The provider classes the module imports, and any other object that
    implements the [AuthProvider] interface. *)
Inductive ProviderClass :=
| GoogleAuthProvider
| FacebookAuthProvider
| TwitterAuthProvider
| GithubAuthProvider
| OAuthProvider (providerId : string)
| CustomAuthProvider (providerId : string).

(** The static [PROVIDER_ID] of a class (constants of the SDK); the
    recovery branch reads those of Google, Facebook and Github. *)
Definition PROVIDER_ID (c : ProviderClass) : string :=
  match c with
  | GoogleAuthProvider => "google.com"
  | FacebookAuthProvider => "facebook.com"
  | TwitterAuthProvider => "twitter.com"
  | GithubAuthProvider => "github.com"
  | OAuthProvider providerId => providerId
  | CustomAuthProvider providerId => providerId
  end.

(** A provider object: its class, the scopes added to it with [addScope]
    since it was constructed, and the parameters last given to
    [setCustomParameters]. *)
Record AuthProvider := mkAuthProvider {
  providerClass : ProviderClass;
  scopes : list string;
  customParameters : list (string * string)
}.

(** [new C()] *)
Definition new (c : ProviderClass) : AuthProvider :=
  {| providerClass := c; scopes := []; customParameters := [] |}.

(** [p.addScope(scope)]: the SDK keeps each scope once. *)
Definition addScope (p : AuthProvider) (scope : string) : AuthProvider :=
  {| providerClass := providerClass p;
     scopes := if existsb (String.eqb scope) (scopes p)
               then scopes p else scopes p ++ [scope];
     customParameters := customParameters p |}.

(** [p.setCustomParameters(params)] *)
Definition setCustomParameters (params : list (string * string))
    (p : AuthProvider) : AuthProvider :=
  {| providerClass := providerClass p;
     scopes := scopes p;
     customParameters := params |}.

(** The first argument of [signInWithProvider]: [string | AuthProvider]. *)
Inductive ProviderArg :=
| PStr (s : string)
| PObj (p : AuthProvider).

(** [provider instanceof OAuthProvider]: never true of a string, and of an
    object only when it was built by the [OAuthProvider] class. *)
Definition instanceofOAuthProvider (provider : ProviderArg) : bool :=
  match provider with
  | PStr _ => false
  | PObj p =>
      match providerClass p with
      | OAuthProvider _ => true
      | _ => false
      end
  end.

(** [options?: { scopes?: string[] }] *)
Record Options := mkOptions { opt_scopes : option (list string) }.

(** [UserCredential]: its [user] is never null by its interface, so the
    guard [result.user && ...] at line 237 always passes. *)
Record UserCredential := mkUserCredential {
  user : User;
  operationType : string
}.

(** The calls made across the SDK boundary, in the order they are made. *)
Inductive SdkCall :=
| CallGetAuth
| CallUseDeviceLanguage
| CallSignInWithPopup (provider : AuthProvider)
| CallFetchSignInMethodsForEmail (mail : string)
| CallLinkWithCredential (u : User) (c : AuthCredential)
| CallSignInWithEmailAndPassword (mail password : string)
| CallSignOut
| CallCreateUserWithEmailAndPassword (mail password : string)
| CallSendPasswordResetEmail (mail : string)
| CallVerifyPasswordResetCode (actionCode : string)
| CallConfirmPasswordReset (actionCode newPassword : string)
| CallApplyActionCode (actionCode : string)
| CallUpdateProfile (u : User) (displayName photoURL : option string)
| CallUpdatePassword (u : User) (newPassword : string).

(** How a promise ends: fulfilled, rejected, or never settled (an abandoned
    popup). *)
Inductive Promise (A : Type) :=
| Fulfilled (a : A)
| Rejected (e : JsError)
| Pending.
Arguments Fulfilled {A} a.
Arguments Rejected {A} e.
Arguments Pending {A}.

(** The SDK's answers.  Each oracle is given the log of the calls made
    before it, so two calls of one function may be answered differently. *)
Record Sdk := mkSdk {
  sdk_signInWithPopup :
    list SdkCall → AuthProvider → Promise UserCredential;
  sdk_fetchSignInMethodsForEmail :
    list SdkCall → string → Promise (list string);
  sdk_linkWithCredential :
    list SdkCall → User → AuthCredential → Promise UserCredential;
  sdk_signInWithEmailAndPassword :
    list SdkCall → string → string → Promise UserCredential;
  sdk_signOut : list SdkCall → Promise unit;
  sdk_createUserWithEmailAndPassword :
    list SdkCall → string → string → Promise UserCredential;
  sdk_sendPasswordResetEmail : list SdkCall → string → Promise unit;
  sdk_verifyPasswordResetCode : list SdkCall → string → Promise string;
  sdk_confirmPasswordReset : list SdkCall → string → string → Promise unit;
  sdk_applyActionCode : list SdkCall → string → Promise unit;
  sdk_updateProfile :
    list SdkCall → User → option string → option string → Promise unit;
  sdk_updatePassword : list SdkCall → User → string → Promise unit
}.

(** ** The world a facade function runs in *)

Record World := mkWorld {
  store : State;            (* what [useReducer] holds *)
  calls : list SdkCall      (* the SDK calls made so far *)
}.

(** The body of an [async function]: it returns (fulfils), throws (rejects)
    or stays suspended at an [await] (pending). *)
Definition Body (A : Type) : Type := World → Promise A * World.

Definition ret {A} (a : A) : Body A := fun w => (Fulfilled a, w).

Definition throw {A} (e : JsError) : Body A := fun w => (Rejected e, w).

Definition bind {A B} (m : Body A) (k : A → Body B) : Body B :=
  fun w =>
    match m w with
    | (Fulfilled a, w') => k a w'
    | (Rejected e, w') => (Rejected e, w')
    | (Pending, w') => (Pending, w')
    end.

Notation "x <- m ;; k" := (bind m (fun x => k))
  (at level 100, m at next level, right associativity).
Notation "m ;; k" := (bind m (fun _ => k))
  (at level 100, right associativity).

(** [try { body } catch (e) { handler }] *)
Definition tryCatch {A} (body : Body A) (handler : JsError → Body A) : Body A :=
  fun w =>
    match body w with
    | (Rejected e, w') => handler e w'
    | r => r
    end.

(** [setState(patch)]: dispatch the patch to the reducer. *)
Definition setState (patch : State) : Body unit :=
  fun w => (Fulfilled tt,
            {| store := reducer (store w) patch; calls := calls w |}).

(** A synchronous SDK call whose result is not inspected ([getAuth],
    [useDeviceLanguage]). *)
Definition sdkSync (c : SdkCall) : Body unit :=
  fun w => (Fulfilled tt, {| store := store w; calls := calls w ++ [c] |}).

(** [await f(args)] (or [return f(args)] in tail position): the call is
    logged and the body continues with the way its promise settles. *)
Definition await {A} (c : SdkCall) (answer : list SdkCall → Promise A) : Body A :=
  fun w => (answer (calls w), {| store := store w; calls := calls w ++ [c] |}).

(** [f(args)] with the promise dropped: the call is made, nothing waits for
    it and no handler is attached to it. *)
Definition notAwaited {A} (c : SdkCall) (answer : list SdkCall → Promise A) : Body unit :=
  fun w => (Fulfilled tt, {| store := store w; calls := calls w ++ [c] |}).

(** How a synchronous call ends: it returns or it throws. *)
Inductive Completion (A : Type) :=
| Normal (a : A)
| Abrupt (e : JsError).
Arguments Normal {A} a.
Arguments Abrupt {A} e.

(** Calling an [async function]: the call returns a promise, whatever the
    body does; a [throw] in the body rejects that promise. *)
Definition Async (A : Type) : Type := World → Completion (Promise A) * World.

Definition async {A} (body : Body A) : Async A :=
  fun w => let '(p, w') := body w in (Normal p, w').

(** ** The context value *)

(** [FirebaseApp]: an opaque handle. *)
Record FirebaseApp := mkApp { app_name : string }.

(** [interface FirebaseContext]; [setState] is the dispatcher of the store
    in the world and is not a field here. *)
Record FirebaseContext := mkContext {
  ctx_user : option User;
  ctx_loading : JsVal;
  ctx_error : JsVal;
  ctx_app : FirebaseApp;
  ctx_firstCheck : JsVal
}.

(** The [user] field read as [User | undefined]. *)
Definition userOf (v : JsVal) : option User :=
  match v with
  | VUser u => Some u
  | _ => None
  end.

(** The [value] given to [FirebaseContext.Provider] at lines 115-122: the
    destructured state, the app handle and the dispatcher. *)
Definition contextValue (app : FirebaseApp) (s : State) : FirebaseContext :=
  {| ctx_user := userOf (getField s "user");
     ctx_loading := getField s "loading";
     ctx_error := getField s "error";
     ctx_app := app;
     ctx_firstCheck := getField s "firstCheck" |}.

(** The effect run once on mount, before the subscription is opened:
    [!user && setState({ loading: true })]. *)
Definition mountEffect (w : World) : World :=
  if truthy (getField (store w) "user") then w
  else snd (setState loadingPatch w).

(** The callback given to [onAuthStateChanged]. *)
Definition onAuthStateChangedCallback (u : option User) (w : World) : World :=
  snd (setState (authStatePatch u) w).

(** The world right after the provider mounted. *)
Definition mounted (firebaseCurrentUser : option User) : World :=
  mountEffect {| store := initialState firebaseCurrentUser; calls := [] |}.

(** ** signInWithProvider, step by step *)

(** Lines 153-185: the [switch] over the identifier, or the caller's object.
    [inl] is the error thrown by the [default] case. *)
Definition resolveProvider (provider : ProviderArg) : JsError + AuthProvider :=
  match provider with
  | PStr s =>
      if String.eqb s SIGNIN_PROVIDERS.GOOGLE then
        inr (new GoogleAuthProvider)
      else if String.eqb s SIGNIN_PROVIDERS.FACEBOOK then
        inr (new FacebookAuthProvider)
      else if String.eqb s SIGNIN_PROVIDERS.TWITTER then
        inr (new TwitterAuthProvider)
      else if String.eqb s SIGNIN_PROVIDERS.GITHUB then
        inr (new GithubAuthProvider)
      else if String.eqb s SIGNIN_PROVIDERS.MICROSOFT then
        inr (new (OAuthProvider "microsoft.com"))
      else if String.eqb s SIGNIN_PROVIDERS.YAHOO then
        inr (new (OAuthProvider "yahoo.com"))
      else
        inl (Error ("Unrecognized provider: " +:+ s))
  | PObj p => inr p
  end.

(** Lines 187-188:
    [options && Array.isArray(options.scopes) ? options.scopes : []]. *)
Definition requestedScopes (options : option Options) : list string :=
  match options with
  | Some o =>
      match opt_scopes o with
      | Some l => l
      | None => []
      end
  | None => []
  end.

(** Lines 190-194: the guard tests the argument [provider], the scopes go
    to [providerObj]. *)
Definition attachScopes (provider : ProviderArg) (scopes : list string)
    (providerObj : AuthProvider) : AuthProvider :=
  if instanceofOAuthProvider provider
  then foldl addScope providerObj scopes
  else providerObj.

(** Lines 202-206. *)
Definition supportedPopupSignInMethods : list string :=
  [PROVIDER_ID GoogleAuthProvider;
   PROVIDER_ID FacebookAuthProvider;
   PROVIDER_ID GithubAuthProvider].

(** Lines 208-219. *)
Definition getProvider (providerId : string) : JsError + AuthProvider :=
  if String.eqb providerId (PROVIDER_ID GoogleAuthProvider) then
    inr (new GoogleAuthProvider)
  else if String.eqb providerId (PROVIDER_ID FacebookAuthProvider) then
    inr (new FacebookAuthProvider)
  else if String.eqb providerId (PROVIDER_ID GithubAuthProvider) then
    inr (new GithubAuthProvider)
  else
    inl (Error ("No provider implemented for " +:+ providerId)).

(** Lines 222-224: [providers.find(p => supported.includes(p))]. *)
Definition firstPopupProviderMethod (providers : list string) : option string :=
  List.find (fun p => existsb (String.eqb p) supportedPopupSignInMethods)
            providers.

(** Line 201: [e.email && e.credential && e.code === "auth/..."].  When the
    guard passes, the email and the pending credential it found. *)
Definition accountExists (e : JsError) : option (string * AuthCredential) :=
  match email e, credential e with
  | Some mail, Some cred =>
      if negb (String.eqb mail "")
         && bool_decide
              (code e = Some "auth/account-exists-with-different-credential")
      then Some (mail, cred)
      else None
  | _, _ => None
  end.

(** Lifting a [throw]ing synchronous helper into a body. *)
Definition orThrow {A} (r : JsError + A) : Body A :=
  match r with
  | inl e => throw e
  | inr a => ret a
  end.

Section Facade.
Variable sdk : Sdk.
Variable firebaseContext : FirebaseContext.

(** Lines 221-237: the recovery branch of the [catch].  The guard
    [result.user &&] of line 237 is on a field that always holds a user
    object, so the link call is made whenever the second popup succeeds;
    its promise is dropped. *)
Definition recover (mail : string) (cred : AuthCredential) : Body unit :=
  providers <- await (CallFetchSignInMethodsForEmail mail)
                 (fun h => sdk_fetchSignInMethodsForEmail sdk h mail) ;;
  match firstPopupProviderMethod providers with
  | None =>
      throw (Error "Your account is linked to a provider that isn't supported.")
  | Some method =>
      if String.eqb method "" then
        throw (Error "Your account is linked to a provider that isn't supported.")
      else
        linkedProvider0 <- orThrow (getProvider method) ;;
        let linkedProvider :=
          setCustomParameters [("login_hint", mail)] linkedProvider0 in
        result <- await (CallSignInWithPopup linkedProvider)
                    (fun h => sdk_signInWithPopup sdk h linkedProvider) ;;
        notAwaited (CallLinkWithCredential (user result) cred)
          (fun h => sdk_linkWithCredential sdk h (user result) cred)
  end.

(** Lines 145-246. *)
Definition signInWithProvider (provider : ProviderArg)
    (options : option Options) : Async (option UserCredential) :=
  async (
    sdkSync CallGetAuth ;;
    setState loadingPatch ;;
    sdkSync CallUseDeviceLanguage ;;
    providerObj0 <- orThrow (resolveProvider provider) ;;
    let scopes := requestedScopes options in
    let providerObj := attachScopes provider scopes providerObj0 in
    tryCatch
      (userCredential <- await (CallSignInWithPopup providerObj)
                           (fun h => sdk_signInWithPopup sdk h providerObj) ;;
       ret (Some userCredential))
      (fun e =>
         match accountExists e with
         | Some (mail, cred) => recover mail cred
         | None => setState (errorPatch e)
         end ;;
         ret None)).

(** Lines 248-262. *)
Definition signInWithEmailAndPassword (mail password : string)
    : Async (option UserCredential) :=
  async (
    sdkSync CallGetAuth ;;
    setState loadingPatch ;;
    tryCatch
      (r <- await (CallSignInWithEmailAndPassword mail password)
              (fun h => sdk_signInWithEmailAndPassword sdk h mail password) ;;
       ret (Some r))
      (fun e => setState (errorPatch e) ;; ret None)).

(** Lines 264-268. *)
Definition signOut : Async unit :=
  async (
    sdkSync CallGetAuth ;;
    setState loadingPatch ;;
    await CallSignOut (sdk_signOut sdk)).

(** Lines 270-283. *)
Definition createUserWithEmailAndPassword (mail password : string)
    : Async (option UserCredential) :=
  async (
    sdkSync CallGetAuth ;;
    setState loadingPatch ;;
    tryCatch
      (r <- await (CallCreateUserWithEmailAndPassword mail password)
              (fun h => sdk_createUserWithEmailAndPassword sdk h mail password) ;;
       ret (Some r))
      (fun e => setState (errorPatch e) ;; ret None)).

(** Lines 285-288. *)
Definition sendPasswordResetEmail (mail : string) : Async unit :=
  async (
    sdkSync CallGetAuth ;;
    await (CallSendPasswordResetEmail mail)
      (fun h => sdk_sendPasswordResetEmail sdk h mail)).

(** Lines 290-293. *)
Definition verifyPasswordResetCode (actionCode : string) : Async string :=
  async (
    sdkSync CallGetAuth ;;
    await (CallVerifyPasswordResetCode actionCode)
      (fun h => sdk_verifyPasswordResetCode sdk h actionCode)).

(** Lines 295-301. *)
Definition confirmPasswordReset (actionCode newPassword : string) : Async unit :=
  async (
    sdkSync CallGetAuth ;;
    await (CallConfirmPasswordReset actionCode newPassword)
      (fun h => sdk_confirmPasswordReset sdk h actionCode newPassword)).

(** Lines 303-306. *)
Definition applyActionCode (actionCode : string) : Async unit :=
  async (
    sdkSync CallGetAuth ;;
    await (CallApplyActionCode actionCode)
      (fun h => sdk_applyActionCode sdk h actionCode)).

(** Lines 308-322. *)
Definition updateProfile (displayName photoURL : option string) : Async unit :=
  async (
    match ctx_user firebaseContext with
    | None => throw (Error "User is not logged in")
    | Some u =>
        await (CallUpdateProfile u displayName photoURL)
          (fun h => sdk_updateProfile sdk h u displayName photoURL)
    end).

(** Lines 324-330. *)
Definition updatePassword (newPassword : string) : Async unit :=
  async (
    match ctx_user firebaseContext with
    | None => throw (Error "User is not logged in")
    | Some u =>
        await (CallUpdatePassword u newPassword)
          (fun h => sdk_updatePassword sdk h u newPassword)
    end).
End Facade.

(** ** useFirebaseAuth *)

(** The object returned at lines 332-347. *)
Record Facade := mkFacade {
  fa_user : option User;
  fa_loading : JsVal;
  fa_error : JsVal;
  fa_firstCheck : JsVal;
  fa_signInWithEmailAndPassword : string → string → Async (option UserCredential);
  fa_signInWithProvider : ProviderArg → option Options → Async (option UserCredential);
  fa_signOut : Async unit;
  fa_createUserWithEmailAndPassword : string → string → Async (option UserCredential);
  fa_sendPasswordResetEmail : string → Async unit;
  fa_verifyPasswordResetCode : string → Async string;
  fa_confirmPasswordReset : string → string → Async unit;
  fa_updateProfile : option string → option string → Async unit;
  fa_updatePassword : string → Async unit;
  fa_applyActionCode : string → Async unit
}.

(** Lines 129-348.  [useFirebaseAuth] is an ordinary function: its [throw]
    is seen by the caller at the call. *)
Definition useFirebaseAuth (sdk : Sdk) (firebaseContext : option FirebaseContext)
    : Completion Facade :=
  match firebaseContext with
  | None => Abrupt (Error "No FirebaseAuthProvider found.")
  | Some ctx =>
      Normal
        {| fa_user := ctx_user ctx;
           fa_loading := ctx_loading ctx;
           fa_error := ctx_error ctx;
           fa_firstCheck := ctx_firstCheck ctx;
           fa_signInWithEmailAndPassword := signInWithEmailAndPassword sdk;
           fa_signInWithProvider := signInWithProvider sdk;
           fa_signOut := signOut sdk;
           fa_createUserWithEmailAndPassword := createUserWithEmailAndPassword sdk;
           fa_sendPasswordResetEmail := sendPasswordResetEmail sdk;
           fa_verifyPasswordResetCode := verifyPasswordResetCode sdk;
           fa_confirmPasswordReset := confirmPasswordReset sdk;
           fa_updateProfile := updateProfile sdk ctx;
           fa_updatePassword := updatePassword sdk ctx;
           fa_applyActionCode := applyActionCode sdk |}
  end.

(** ** The life of a mounted provider *)

(** What a descendant can ask of the facade. *)
Inductive FacadeCall :=
| DoSignInWithProvider (provider : ProviderArg) (options : option Options)
| DoSignInWithEmailAndPassword (mail password : string)
| DoSignOut
| DoCreateUserWithEmailAndPassword (mail password : string)
| DoSendPasswordResetEmail (mail : string)
| DoVerifyPasswordResetCode (actionCode : string)
| DoConfirmPasswordReset (actionCode newPassword : string)
| DoApplyActionCode (actionCode : string)
| DoUpdateProfile (displayName photoURL : option string)
| DoUpdatePassword (newPassword : string).

(** Everything that can update the store after mount: a notification of
    the auth-state stream, or a facade call. *)
Inductive Event :=
| AuthStateChanged (u : option User)
| FacadeCalled (c : FacadeCall).

(** The world after a facade call has run as far as it goes. *)
Definition runFacadeCall (f : Facade) (c : FacadeCall) (w : World) : World :=
  match c with
  | DoSignInWithProvider provider options =>
      snd (fa_signInWithProvider f provider options w)
  | DoSignInWithEmailAndPassword mail password =>
      snd (fa_signInWithEmailAndPassword f mail password w)
  | DoSignOut => snd (fa_signOut f w)
  | DoCreateUserWithEmailAndPassword mail password =>
      snd (fa_createUserWithEmailAndPassword f mail password w)
  | DoSendPasswordResetEmail mail => snd (fa_sendPasswordResetEmail f mail w)
  | DoVerifyPasswordResetCode actionCode =>
      snd (fa_verifyPasswordResetCode f actionCode w)
  | DoConfirmPasswordReset actionCode newPassword =>
      snd (fa_confirmPasswordReset f actionCode newPassword w)
  | DoApplyActionCode actionCode => snd (fa_applyActionCode f actionCode w)
  | DoUpdateProfile displayName photoURL =>
      snd (fa_updateProfile f displayName photoURL w)
  | DoUpdatePassword newPassword => snd (fa_updatePassword f newPassword w)
  end.

Definition step (sdk : Sdk) (app : FirebaseApp) (w : World) (ev : Event) : World :=
  match ev with
  | AuthStateChanged u => onAuthStateChangedCallback u w
  | FacadeCalled c =>
      match useFirebaseAuth sdk (Some (contextValue app (store w))) with
      | Normal f => runFacadeCall f c w
      | Abrupt _ => w
      end
  end.

Definition run (sdk : Sdk) (app : FirebaseApp) (w : World) (evs : list Event) : World :=
  foldl (step sdk app) w evs.

(** Whether a trace holds a notification of the auth-state stream. *)
Definition isNotification (ev : Event) : bool :=
  match ev with
  | AuthStateChanged _ => true
  | FacadeCalled _ => false
  end.

(** ** Concrete collaborators used to run the code on examples *)

Definition ann : User := mkUser "uid-ann".

Definition pendingCredential : AuthCredential :=
  mkCredential "twitter.com" "oauth-token".

(** The error the SDK rejects a popup with when the email already belongs to
    an account with another credential. *)
Definition conflictError (mail : string) : JsError :=
  {| message := "Firebase: Error (auth/account-exists-with-different-credential).";
     code := Some "auth/account-exists-with-different-credential";
     email := Some mail;
     credential := Some pendingCredential |}.

Definition wrongPassword : JsError :=
  {| message := "Firebase: Error (auth/wrong-password).";
     code := Some "auth/wrong-password";
     email := None;
     credential := None |}.

(** An SDK that rejects a popup with a conflict for ann@example.com unless
    the provider carries custom parameters, answers [methods] for every
    email, and rejects every other call with [wrongPassword]. *)
Definition scriptedSdk (methods : list string) : Sdk :=
  {| sdk_signInWithPopup := fun _ p =>
       match customParameters p with
       | [] => Rejected (conflictError "ann@example.com")
       | _ => Fulfilled {| user := ann; operationType := "signIn" |}
       end;
     sdk_fetchSignInMethodsForEmail := fun _ _ => Fulfilled methods;
     sdk_linkWithCredential := fun _ _ _ => Rejected wrongPassword;
     sdk_signInWithEmailAndPassword := fun _ _ _ => Rejected wrongPassword;
     sdk_signOut := fun _ => Rejected wrongPassword;
     sdk_createUserWithEmailAndPassword := fun _ _ _ => Rejected wrongPassword;
     sdk_sendPasswordResetEmail := fun _ _ => Rejected wrongPassword;
     sdk_verifyPasswordResetCode := fun _ _ => Rejected wrongPassword;
     sdk_confirmPasswordReset := fun _ _ _ => Rejected wrongPassword;
     sdk_applyActionCode := fun _ _ => Rejected wrongPassword;
     sdk_updateProfile := fun _ _ _ _ => Rejected wrongPassword;
     sdk_updatePassword := fun _ _ _ => Rejected wrongPassword |}.

(** The world of a provider mounted with no current user. *)
Definition freshWorld : World := mounted None.

Definition demoApp : FirebaseApp := mkApp "[DEFAULT]".

(** The same SDK with another answer to [linkWithCredential]. *)
Definition withLink (sdk : Sdk)
    (link : list SdkCall → User → AuthCredential → Promise UserCredential) : Sdk :=
  {| sdk_signInWithPopup := sdk_signInWithPopup sdk;
     sdk_fetchSignInMethodsForEmail := sdk_fetchSignInMethodsForEmail sdk;
     sdk_linkWithCredential := link;
     sdk_signInWithEmailAndPassword := sdk_signInWithEmailAndPassword sdk;
     sdk_signOut := sdk_signOut sdk;
     sdk_createUserWithEmailAndPassword := sdk_createUserWithEmailAndPassword sdk;
     sdk_sendPasswordResetEmail := sdk_sendPasswordResetEmail sdk;
     sdk_verifyPasswordResetCode := sdk_verifyPasswordResetCode sdk;
     sdk_confirmPasswordReset := sdk_confirmPasswordReset sdk;
     sdk_applyActionCode := sdk_applyActionCode sdk;
     sdk_updateProfile := sdk_updateProfile sdk;
     sdk_updatePassword := sdk_updatePassword sdk |}.

(** The spec's words for a facade operation that captures a rejection: the
    error is stored in [error], [loading] is false, and the promise is
    fulfilled instead of rejected. *)
Definition capturesRejection {A} (call : Async A) (e : JsError) (w : World) : Prop :=
  let '(r, w') := call w in
  store w' !! "error" = Some (VError e) ∧
  store w' !! "loading" = Some (VBool false) ∧
  ∃ a, r = Normal (Fulfilled a).

(** A body that never changes the [firstCheck] field. *)
Definition keepsFirstCheck {A} (m : Body A) : Prop :=
  ∀ w, store (snd (m w)) !! "firstCheck" = store w !! "firstCheck".

(** ** More collaborators and predicates for the remaining paths *)

Definition annCredential : UserCredential :=
  {| user := ann; operationType := "signIn" |}.

(** An SDK in which every call succeeds; an email has no sign-in method. *)
Definition acceptingSdk : Sdk :=
  {| sdk_signInWithPopup := fun _ _ => Fulfilled annCredential;
     sdk_fetchSignInMethodsForEmail := fun _ _ => Fulfilled [];
     sdk_linkWithCredential := fun _ _ _ => Fulfilled annCredential;
     sdk_signInWithEmailAndPassword := fun _ _ _ => Fulfilled annCredential;
     sdk_signOut := fun _ => Fulfilled tt;
     sdk_createUserWithEmailAndPassword := fun _ _ _ => Fulfilled annCredential;
     sdk_sendPasswordResetEmail := fun _ _ => Fulfilled tt;
     sdk_verifyPasswordResetCode := fun _ _ => Fulfilled "ann@example.com";
     sdk_confirmPasswordReset := fun _ _ _ => Fulfilled tt;
     sdk_applyActionCode := fun _ _ => Fulfilled tt;
     sdk_updateProfile := fun _ _ _ _ => Fulfilled tt;
     sdk_updatePassword := fun _ _ _ => Fulfilled tt |}.

(** An SDK whose popup and sign-in-method lookup settle as given, every
    other call being rejected with [wrongPassword]. *)
Definition popupSdk (popup : Promise UserCredential)
    (methods : Promise (list string)) : Sdk :=
  {| sdk_signInWithPopup := fun _ _ => popup;
     sdk_fetchSignInMethodsForEmail := fun _ _ => methods;
     sdk_linkWithCredential := fun _ _ _ => Rejected wrongPassword;
     sdk_signInWithEmailAndPassword := fun _ _ _ => Rejected wrongPassword;
     sdk_signOut := fun _ => Rejected wrongPassword;
     sdk_createUserWithEmailAndPassword := fun _ _ _ => Rejected wrongPassword;
     sdk_sendPasswordResetEmail := fun _ _ => Rejected wrongPassword;
     sdk_verifyPasswordResetCode := fun _ _ => Rejected wrongPassword;
     sdk_confirmPasswordReset := fun _ _ _ => Rejected wrongPassword;
     sdk_applyActionCode := fun _ _ => Rejected wrongPassword;
     sdk_updateProfile := fun _ _ _ _ => Rejected wrongPassword;
     sdk_updatePassword := fun _ _ _ => Rejected wrongPassword |}.

(** What one facade call can have done to the store: nothing, the patch
    [{ loading: true }], or that patch followed by
    [{ error: e, loading: false }]. *)
Definition facadeOutcome (s s' : State) : Prop :=
  s' = s ∨
  s' = reducer s loadingPatch ∨
  ∃ e, s' = reducer (reducer s loadingPatch) (errorPatch e).

(** The shape the provider gives the state at mount: the three seeded
    fields hold values of their declared types, [error] is absent or an
    error, and there is no other key. *)
Definition wellFormed (s : State) : Prop :=
  (∃ b, s !! "loading" = Some (VBool b)) ∧
  (∃ b, s !! "firstCheck" = Some (VBool b)) ∧
  (∃ u, s !! "user" = Some (userOrUndefined u)) ∧
  (s !! "error" = None ∨ ∃ e, s !! "error" = Some (VError e)) ∧
  dom s ⊆ ({[ "user"; "loading"; "firstCheck"; "error" ]} : gset string).

(** The four operations of lines 285-306, which only forward to the SDK. *)
Definition isPassThrough (ev : Event) : bool :=
  match ev with
  | FacadeCalled (DoSendPasswordResetEmail _)
  | FacadeCalled (DoVerifyPasswordResetCode _)
  | FacadeCalled (DoConfirmPasswordReset _ _)
  | FacadeCalled (DoApplyActionCode _) => true
  | _ => false
  end.

(** ** Reducer facts *)

Lemma reducer_lookup (s p : State) (field : string) :
  reducer s p !! field =
    match p !! field with
    | Some v => Some v
    | None => s !! field
    end.
Proof.
  unfold reducer. destruct (p !! field) as [v|] eqn:Hp.
  - by apply lookup_union_Some_l.
  - by apply lookup_union_r.
Qed.

Lemma reducer_empty (s : State) : reducer s ∅ = s.
Proof. unfold reducer. apply (left_id_L ∅ (∪)). Qed.

(** C2: the reducer is the shallow merge [{...s, ...p}] and two successive
    patches compose as the field-wise last-writer-wins merge: a field absent
    from a patch keeps its previous value, a field present in both patches
    takes the value of the second. *)
Theorem C2_reducer_last_writer_wins (s p1 p2 : State) :
  (∀ field,
     reducer s p1 !! field =
       match p1 !! field with Some v => Some v | None => s !! field end) ∧
  (∀ field,
     reducer (reducer s p1) p2 !! field = last_writer_wins s p1 p2 field) ∧
  (∀ field, reducer s (delete field p1) !! field = s !! field) ∧
  (∀ field v,
     reducer (reducer s p1) (<[field:=v]> p2) !! field = Some v) ∧
  useReducedState s [p1; p2] = reducer (reducer s p1) p2.
Proof.
  split; [intros; apply reducer_lookup|].
  split.
  { intros field. unfold last_writer_wins.
    rewrite !reducer_lookup. reflexivity. }
  split.
  { intros field. rewrite reducer_lookup, lookup_delete_eq. reflexivity. }
  split.
  { intros field v. rewrite reducer_lookup, lookup_insert_eq. reflexivity. }
  reflexivity.
Qed.

(** C9: at provider initialization the state has exactly the keys [user],
    [loading] and [firstCheck]: the SDK's current user (or [undefined] when
    it is [null]), [false] and [false]; there is no [error] key. *)
Theorem C9_initial_state (firebaseCurrentUser : option User) :
  let s := useReducedState (initialState firebaseCurrentUser) [] in
  s !! "user" = Some (userOrUndefined firebaseCurrentUser) ∧
  userOrUndefined None = VUndefined ∧
  (∀ u, userOrUndefined (Some u) = VUser u) ∧
  s !! "loading" = Some (VBool false) ∧
  s !! "firstCheck" = Some (VBool false) ∧
  s !! "error" = None ∧
  dom s = ({[ "user"; "loading"; "firstCheck" ]} : gset string).
Proof.
  cbn [useReducedState foldl]. unfold initialState.
  repeat split; by simplify_map_eq.
Qed.

(** ** The provider switch *)

Lemma resolveProvider_cases (s : string) :
  (s = "google" ∧ resolveProvider (PStr s) = inr (new GoogleAuthProvider)) ∨
  (s = "facebook" ∧ resolveProvider (PStr s) = inr (new FacebookAuthProvider)) ∨
  (s = "twitter" ∧ resolveProvider (PStr s) = inr (new TwitterAuthProvider)) ∨
  (s = "github" ∧ resolveProvider (PStr s) = inr (new GithubAuthProvider)) ∨
  (s = "microsoft" ∧
   resolveProvider (PStr s) = inr (new (OAuthProvider "microsoft.com"))) ∨
  (s = "yahoo" ∧
   resolveProvider (PStr s) = inr (new (OAuthProvider "yahoo.com"))) ∨
  ((s ∉ ["google"; "facebook"; "twitter"; "github"; "microsoft"; "yahoo"]) ∧
   resolveProvider (PStr s) = inl (Error ("Unrecognized provider: " +:+ s))).
Proof.
  unfold resolveProvider, SIGNIN_PROVIDERS.GOOGLE, SIGNIN_PROVIDERS.FACEBOOK,
    SIGNIN_PROVIDERS.TWITTER, SIGNIN_PROVIDERS.GITHUB,
    SIGNIN_PROVIDERS.MICROSOFT, SIGNIN_PROVIDERS.YAHOO.
  repeat (match goal with
          | |- context [String.eqb s ?k] =>
              destruct (String.eqb_spec s k) as [->|?]; [tauto|]
          end).
  repeat right. split; [|reflexivity].
  rewrite !elem_of_cons, elem_of_nil. tauto.
Qed.

(** A string is never an instance of [OAuthProvider], so the scope loop is
    skipped for every identifier. *)
Lemma attachScopes_identifier (s : string) (scopes : list string)
    (providerObj : AuthProvider) :
  attachScopes (PStr s) scopes providerObj = providerObj.
Proof. reflexivity. Qed.

Lemma addScope_keeps (p : AuthProvider) (scope x : string) :
  x ∈ scopes p → x ∈ scopes (addScope p scope).
Proof.
  intros Hx. unfold addScope. cbn.
  destruct (existsb _ _); [done|]. apply elem_of_app. by left.
Qed.

Lemma addScope_adds (p : AuthProvider) (scope : string) :
  scope ∈ scopes (addScope p scope).
Proof.
  unfold addScope. cbn.
  destruct (existsb (String.eqb scope) (scopes p)) eqn:Hex.
  - apply existsb_exists in Hex as (y & Hy & Heq).
    apply String.eqb_eq in Heq. subst y. by apply list_elem_of_In.
  - apply elem_of_app. right. apply list_elem_of_singleton. reflexivity.
Qed.

Lemma foldl_addScope_keeps (l : list string) (p : AuthProvider) (x : string) :
  x ∈ scopes p → x ∈ scopes (foldl addScope p l).
Proof.
  revert p. induction l as [|a l IH]; intros p Hx; [done|].
  cbn. apply IH. by apply addScope_keeps.
Qed.

(** The path the guard does take: a caller-supplied [OAuthProvider] object
    gets every requested scope. *)
Lemma attachScopes_object (p : AuthProvider) (providerId : string)
    (l : list string) (x : string) :
  providerClass p = OAuthProvider providerId →
  x ∈ l → x ∈ scopes (attachScopes (PObj p) l p).
Proof.
  intros Hc. unfold attachScopes, instanceofOAuthProvider. rewrite Hc.
  revert p Hc. induction l as [|a l IH]; intros p Hc Hx.
  - by apply elem_of_nil in Hx.
  - cbn. apply elem_of_cons in Hx as [->|Hx].
    + apply foldl_addScope_keeps, addScope_adds.
    + apply IH; [done|done].
Qed.

(** ** Running a facade body *)

Ltac run_body :=
  unfold async, tryCatch, bind, orThrow, setState, sdkSync, await, notAwaited,
    ret, throw;
  cbn [fst snd store calls];
  rewrite <- ?app_assoc; cbn [app].

Ltac log_rest :=
  run_body; eexists; rewrite <- ?app_assoc; cbn [app]; reflexivity.

Lemma signInWithProvider_unrecognized (sdk : Sdk) (provider : ProviderArg)
    (options : option Options) (e : JsError) (w : World) :
  resolveProvider provider = inl e →
  signInWithProvider sdk provider options w =
    (Normal (Rejected e),
     {| store := reducer (store w) loadingPatch;
        calls := calls w ++ [CallGetAuth; CallUseDeviceLanguage] |}).
Proof.
  intros Hr. unfold signInWithProvider. run_body. rewrite Hr. run_body.
  reflexivity.
Qed.

Lemma signInWithProvider_opens_popup (sdk : Sdk) (provider : ProviderArg)
    (options : option Options) (providerObj0 : AuthProvider) (w : World) :
  resolveProvider provider = inr providerObj0 →
  ∃ rest,
    calls (snd (signInWithProvider sdk provider options w)) =
      calls w ++
        [CallGetAuth; CallUseDeviceLanguage;
         CallSignInWithPopup
           (attachScopes provider (requestedScopes options) providerObj0)]
        ++ rest.
Proof.
  intros Hr. unfold signInWithProvider. run_body. rewrite Hr. run_body.
  destruct (sdk_signInWithPopup sdk _ _) as [c|e|]; [log_rest| |log_rest].
  destruct (accountExists e) as [[mail cred]|]; [|log_rest].
  unfold recover. run_body.
  destruct (sdk_fetchSignInMethodsForEmail sdk _ _) as [ms|e1|];
    [|log_rest|log_rest].
  destruct (firstPopupProviderMethod ms) as [m|]; [|log_rest].
  destruct (String.eqb m ""); [log_rest|].
  destruct (getProvider m) as [e2|lp]; [log_rest|].
  run_body.
  destruct (sdk_signInWithPopup sdk _ _) as [c2|e2|]; log_rest.
Qed.

(** C4 (counterexample): [password] is a member of the enum, yet the switch
    has no case for it and the call rejects without opening a popup; and for
    a string outside the enum the call still returns normally, with a
    rejected promise, instead of throwing. *)
Lemma C4_counterexample_password_and_async :
  "password" ∈ SIGNIN_PROVIDERS.all ∧
  resolveProvider (PStr "password") =
    inl (Error "Unrecognized provider: password") ∧
  calls (snd (signInWithProvider (scriptedSdk []) (PStr "password") None
                freshWorld)) = [CallGetAuth; CallUseDeviceLanguage] ∧
  ("linkedin" ∉ SIGNIN_PROVIDERS.all) ∧
  fst (signInWithProvider (scriptedSdk []) (PStr "linkedin") None freshWorld) =
    Normal (Rejected (Error "Unrecognized provider: linkedin")) ∧
  (∀ e, fst (signInWithProvider (scriptedSdk []) (PStr "linkedin") None
               freshWorld) ≠ Abrupt e).
Proof.
  split; [unfold SIGNIN_PROVIDERS.all; set_solver|].
  split; [reflexivity|].
  split; [reflexivity|].
  split.
  { unfold SIGNIN_PROVIDERS.all. rewrite !elem_of_cons, elem_of_nil.
    intros H. repeat (destruct H as [H|H]; [discriminate H|]). exact H. }
  split; [reflexivity|].
  intros e H. discriminate H.
Qed.

(** C4 (amended): each of google, facebook, twitter, github, microsoft and
    yahoo is resolved to its provider object, which is handed unchanged to
    the popup flow; for every other string, [password] included, the call
    sets [loading], opens no popup and returns a promise rejected with
    "Unrecognized provider: <id>". *)
Theorem C4_provider_identifiers (sdk : Sdk) (s : string)
    (options : option Options) (w : World) :
  resolveProvider (PStr "google") = inr (new GoogleAuthProvider) ∧
  resolveProvider (PStr "facebook") = inr (new FacebookAuthProvider) ∧
  resolveProvider (PStr "twitter") = inr (new TwitterAuthProvider) ∧
  resolveProvider (PStr "github") = inr (new GithubAuthProvider) ∧
  resolveProvider (PStr "microsoft") = inr (new (OAuthProvider "microsoft.com")) ∧
  resolveProvider (PStr "yahoo") = inr (new (OAuthProvider "yahoo.com")) ∧
  match resolveProvider (PStr s) with
  | inr providerObj =>
      s ∈ ["google"; "facebook"; "twitter"; "github"; "microsoft"; "yahoo"] ∧
      ∃ rest,
        calls (snd (signInWithProvider sdk (PStr s) options w)) =
          calls w ++
            [CallGetAuth; CallUseDeviceLanguage;
             CallSignInWithPopup providerObj] ++ rest
  | inl e =>
      (s ∉ ["google"; "facebook"; "twitter"; "github"; "microsoft"; "yahoo"]) ∧
      e = Error ("Unrecognized provider: " +:+ s) ∧
      signInWithProvider sdk (PStr s) options w =
        (Normal (Rejected e),
         {| store := reducer (store w) loadingPatch;
            calls := calls w ++ [CallGetAuth; CallUseDeviceLanguage] |})
  end.
Proof.
  do 6 (split; [reflexivity|]).
  destruct (resolveProvider (PStr s)) as [e|providerObj] eqn:Hr.
  - destruct (resolveProvider_cases s)
      as [[_ H]|[[_ H]|[[_ H]|[[_ H]|[[_ H]|[[_ H]|[Hn H]]]]]]];
      rewrite Hr in H; try discriminate H.
    injection H as ->.
    split; [exact Hn|]. split; [reflexivity|].
    by apply signInWithProvider_unrecognized.
  - split.
    + destruct (resolveProvider_cases s)
        as [[-> _]|[[-> _]|[[-> _]|[[-> _]|[[-> _]|[[-> _]|[_ H]]]]]]];
        try set_solver.
      rewrite Hr in H. discriminate H.
    + destruct (signInWithProvider_opens_popup sdk (PStr s) options
                  providerObj w Hr) as [rest Hrest].
      exists rest. exact Hrest.
Qed.

(** C5 (the code at the failing input): with the identifier [microsoft] (or
    [yahoo]) the provider object that reaches the popup has none of the
    requested scopes, whatever they are. *)
Theorem C5_identifier_scopes_not_attached (sdk : Sdk) (l : list string) (w : World) :
  (∃ rest,
     calls (snd (signInWithProvider sdk (PStr "microsoft")
                   (Some {| opt_scopes := Some l |}) w)) =
       calls w ++
         [CallGetAuth; CallUseDeviceLanguage;
          CallSignInWithPopup (new (OAuthProvider "microsoft.com"))] ++ rest) ∧
  (∃ rest,
     calls (snd (signInWithProvider sdk (PStr "yahoo")
                   (Some {| opt_scopes := Some l |}) w)) =
       calls w ++
         [CallGetAuth; CallUseDeviceLanguage;
          CallSignInWithPopup (new (OAuthProvider "yahoo.com"))] ++ rest) ∧
  scopes (new (OAuthProvider "microsoft.com")) = [] ∧
  scopes (new (OAuthProvider "yahoo.com")) = [] ∧
  calls (snd (signInWithProvider (scriptedSdk []) (PStr "microsoft")
                (Some {| opt_scopes := Some ["User.Read"] |}) freshWorld)) =
    [CallGetAuth; CallUseDeviceLanguage;
     CallSignInWithPopup
       {| providerClass := OAuthProvider "microsoft.com";
          scopes := [];
          customParameters := [] |};
     CallFetchSignInMethodsForEmail "ann@example.com"].
Proof.
  split.
  { apply (signInWithProvider_opens_popup sdk (PStr "microsoft")). reflexivity. }
  split.
  { apply (signInWithProvider_opens_popup sdk (PStr "yahoo")). reflexivity. }
  repeat split; reflexivity.
Qed.

(** C7: with no ancestor provider the hook throws at the call, and no
    facade is returned. *)
Theorem C7_no_provider_throws (sdk : Sdk) :
  useFirebaseAuth sdk None = Abrupt (Error "No FirebaseAuthProvider found.") ∧
  (∀ f, useFirebaseAuth sdk None ≠ Normal f) ∧
  (∀ ctx, ∃ f, useFirebaseAuth sdk (Some ctx) = Normal f).
Proof.
  split; [reflexivity|]. split.
  - intros f H. discriminate H.
  - intros ctx. eexists. reflexivity.
Qed.

(** C8: without a user, [updateProfile] and [updatePassword] fail with
    "User is not logged in" and leave the call log (and the store) as it
    was; with a user, each makes exactly one SDK call, the matching update,
    and settles the way that call does. *)
Theorem C8_updates_need_user (sdk : Sdk) (ctx : FirebaseContext)
    (displayName photoURL : option string) (newPassword : string) (w : World) :
  match ctx_user ctx with
  | None =>
      updateProfile sdk ctx displayName photoURL w =
        (Normal (Rejected (Error "User is not logged in")), w) ∧
      updatePassword sdk ctx newPassword w =
        (Normal (Rejected (Error "User is not logged in")), w)
  | Some u =>
      updateProfile sdk ctx displayName photoURL w =
        (Normal (sdk_updateProfile sdk (calls w) u displayName photoURL),
         {| store := store w;
            calls := calls w ++ [CallUpdateProfile u displayName photoURL] |}) ∧
      updatePassword sdk ctx newPassword w =
        (Normal (sdk_updatePassword sdk (calls w) u newPassword),
         {| store := store w;
            calls := calls w ++ [CallUpdatePassword u newPassword] |})
  end.
Proof.
  unfold updateProfile, updatePassword.
  destruct (ctx_user ctx) as [u|]; run_body; split; reflexivity.
Qed.

(** ** The account-conflict recovery branch *)

Lemma accountExists_Some (e : JsError) (mail : string) (cred : AuthCredential) :
  code e = Some "auth/account-exists-with-different-credential" →
  email e = Some mail → mail ≠ "" → credential e = Some cred →
  accountExists e = Some (mail, cred).
Proof.
  intros Hcode Hmail Hne Hcred. unfold accountExists.
  rewrite Hmail, Hcred, Hcode.
  destruct (String.eqb_spec mail "") as [->|_]; [done|]. reflexivity.
Qed.

Lemma supported_includes (p : string) :
  existsb (String.eqb p) supportedPopupSignInMethods = true ↔
  p ∈ supportedPopupSignInMethods.
Proof.
  rewrite existsb_exists, list_elem_of_In. split.
  - intros (y & Hy & Heq). apply String.eqb_eq in Heq. by subst y.
  - intros Hp. exists p. split; [done|]. apply String.eqb_refl.
Qed.

(** [find] returns the first supported method, if there is one. *)
Lemma firstPopupProviderMethod_Some (providers : list string) (method : string) :
  firstPopupProviderMethod providers = Some method →
  method ∈ supportedPopupSignInMethods ∧
  ∃ before after,
    providers = before ++ method :: after ∧
    ∀ p, p ∈ before → p ∉ supportedPopupSignInMethods.
Proof.
  unfold firstPopupProviderMethod.
  induction providers as [|p providers IH]; [discriminate|].
  cbn [find].
  destruct (existsb (String.eqb p) supportedPopupSignInMethods) eqn:Hp.
  - intros [= ->]. split; [by apply supported_includes|].
    exists [], providers. split; [reflexivity|].
    intros q Hq. by apply elem_of_nil in Hq.
  - intros Hfind. destruct (IH Hfind) as (Hin & before & after & -> & Hbefore).
    split; [exact Hin|].
    exists (p :: before), after. split; [reflexivity|].
    intros q Hq. apply elem_of_cons in Hq as [->|Hq]; [|by apply Hbefore].
    intros Hsup. apply supported_includes in Hsup. congruence.
Qed.

Lemma firstPopupProviderMethod_None (providers : list string) :
  firstPopupProviderMethod providers = None ↔
  ∀ p, p ∈ providers → p ∉ supportedPopupSignInMethods.
Proof.
  unfold firstPopupProviderMethod. split.
  - intros Hnone p Hp Hsup.
    apply list_elem_of_In in Hp.
    pose proof (find_none _ _ Hnone p Hp) as Hf. cbn beta in Hf.
    apply supported_includes in Hsup. congruence.
  - intros Hall. induction providers as [|p providers IH]; [reflexivity|].
    cbn [find].
    destruct (existsb (String.eqb p) supportedPopupSignInMethods) eqn:Hp.
    + apply supported_includes in Hp. exfalso.
      apply (Hall p); [apply elem_of_cons; by left|exact Hp].
    + apply IH. intros q Hq. apply Hall. apply elem_of_cons. by right.
Qed.

(** A supported method is never the empty string and always has a class:
    neither the falsy test of line 227 nor the [default] of [getProvider]
    can fire after a successful [find]. *)
Lemma supported_getProvider (method : string) :
  method ∈ supportedPopupSignInMethods →
  String.eqb method "" = false ∧
  ∃ c, c ∈ [GoogleAuthProvider; FacebookAuthProvider; GithubAuthProvider] ∧
       PROVIDER_ID c = method ∧
       getProvider method = inr (new c).
Proof.
  unfold supportedPopupSignInMethods.
  rewrite !elem_of_cons, elem_of_nil.
  intros [->|[->|[->|[]]]]; (split; [reflexivity|]).
  - exists GoogleAuthProvider. set_solver.
  - exists FacebookAuthProvider. set_solver.
  - exists GithubAuthProvider. set_solver.
Qed.

(** The call up to the [catch], when the popup is rejected with a conflict. *)
Lemma signInWithProvider_conflict (sdk : Sdk) (provider : ProviderArg)
    (options : option Options) (providerObj0 : AuthProvider) (e : JsError)
    (mail : string) (cred : AuthCredential) (w : World) :
  resolveProvider provider = inr providerObj0 →
  sdk_signInWithPopup sdk (calls w ++ [CallGetAuth; CallUseDeviceLanguage])
    (attachScopes provider (requestedScopes options) providerObj0) = Rejected e →
  accountExists e = Some (mail, cred) →
  signInWithProvider sdk provider options w =
    async (recover sdk mail cred ;; ret None)
      {| store := reducer (store w) loadingPatch;
         calls := calls w ++
           [CallGetAuth; CallUseDeviceLanguage;
            CallSignInWithPopup
              (attachScopes provider (requestedScopes options) providerObj0)] |}.
Proof.
  intros Hr Hpop Hacc. unfold signInWithProvider. run_body.
  rewrite Hr. run_body. rewrite Hpop, Hacc. reflexivity.
Qed.

Lemma recover_unsupported (sdk : Sdk) (mail : string) (cred : AuthCredential)
    (methods : list string) (w : World) :
  sdk_fetchSignInMethodsForEmail sdk (calls w) mail = Fulfilled methods →
  firstPopupProviderMethod methods = None →
  recover sdk mail cred w =
    (Rejected (Error "Your account is linked to a provider that isn't supported."),
     {| store := store w;
        calls := calls w ++ [CallFetchSignInMethodsForEmail mail] |}).
Proof.
  intros Hfetch Hnone. unfold recover. run_body.
  rewrite Hfetch, Hnone. reflexivity.
Qed.

Lemma recover_supported (sdk : Sdk) (mail : string) (cred : AuthCredential)
    (methods : list string) (method : string) (c : ProviderClass) (w : World) :
  sdk_fetchSignInMethodsForEmail sdk (calls w) mail = Fulfilled methods →
  firstPopupProviderMethod methods = Some method →
  getProvider method = inr (new c) →
  let linkedProvider := setCustomParameters [("login_hint", mail)] (new c) in
  let h := calls w ++ [CallFetchSignInMethodsForEmail mail] in
  recover sdk mail cred w =
    match sdk_signInWithPopup sdk h linkedProvider with
    | Fulfilled result =>
        (Fulfilled tt,
         {| store := store w;
            calls := h ++ [CallSignInWithPopup linkedProvider;
                           CallLinkWithCredential (user result) cred] |})
    | Rejected e2 =>
        (Rejected e2,
         {| store := store w;
            calls := h ++ [CallSignInWithPopup linkedProvider] |})
    | Pending =>
        (Pending,
         {| store := store w;
            calls := h ++ [CallSignInWithPopup linkedProvider] |})
    end.
Proof.
  intros Hfetch Hsome Hget. cbn zeta. unfold recover. run_body.
  rewrite Hfetch, Hsome.
  destruct (firstPopupProviderMethod_Some _ _ Hsome) as [Hsup _].
  destruct (supported_getProvider _ Hsup) as [-> _].
  rewrite Hget. run_body.
  destruct (sdk_signInWithPopup sdk _ _) as [result|e2|]; run_body;
    reflexivity.
Qed.

(** The only patch the call sends on this branch is [{ loading: true }]. *)
Lemma loadingPatch_store (s : State) :
  reducer s loadingPatch !! "loading" = Some (VBool true) ∧
  reducer s loadingPatch !! "error" = s !! "error" ∧
  reducer s loadingPatch !! "user" = s !! "user" ∧
  reducer s loadingPatch !! "firstCheck" = s !! "firstCheck".
Proof. rewrite !reducer_lookup. unfold loadingPatch. by simplify_map_eq. Qed.

Lemma errorPatch_store (s : State) (e : JsError) :
  reducer (reducer s loadingPatch) (errorPatch e) !! "loading" = Some (VBool false) ∧
  reducer (reducer s loadingPatch) (errorPatch e) !! "error" = Some (VError e) ∧
  reducer (reducer s loadingPatch) (errorPatch e) !! "user" = s !! "user" ∧
  reducer (reducer s loadingPatch) (errorPatch e) !! "firstCheck" = s !! "firstCheck".
Proof.
  rewrite !reducer_lookup. unfold loadingPatch, errorPatch.
  by simplify_map_eq.
Qed.

(** C1: when the popup is rejected with
    "auth/account-exists-with-different-credential" carrying an email and a
    pending credential, the sign-in methods of that email are fetched.  If
    none of them is one of google.com, facebook.com, github.com the call
    rejects with the unsupported-provider error; otherwise the provider of
    the first supported method is constructed, given the email as
    [login_hint], and a second popup is run against it, whose success is
    followed by linking the pending credential to the user it returned.  On
    every one of these paths the [error] field is left as it was. *)
Theorem C1_account_exists_recovery (sdk : Sdk) (provider : ProviderArg)
    (options : option Options) (providerObj0 : AuthProvider) (e : JsError)
    (mail : string) (cred : AuthCredential) (methods : list string) (w : World) :
  resolveProvider provider = inr providerObj0 →
  let providerObj := attachScopes provider (requestedScopes options) providerObj0 in
  sdk_signInWithPopup sdk (calls w ++ [CallGetAuth; CallUseDeviceLanguage])
    providerObj = Rejected e →
  code e = Some "auth/account-exists-with-different-credential" →
  email e = Some mail → mail ≠ "" → credential e = Some cred →
  sdk_fetchSignInMethodsForEmail sdk
    (calls w ++ [CallGetAuth; CallUseDeviceLanguage;
                 CallSignInWithPopup providerObj]) mail = Fulfilled methods →
  let fetched :=
    calls w ++ [CallGetAuth; CallUseDeviceLanguage;
                CallSignInWithPopup providerObj;
                CallFetchSignInMethodsForEmail mail] in
  let r := fst (signInWithProvider sdk provider options w) in
  let w' := snd (signInWithProvider sdk provider options w) in
  store w' !! "error" = store w !! "error" ∧
  match firstPopupProviderMethod methods with
  | None =>
      (∀ p, p ∈ methods → p ∉ supportedPopupSignInMethods) ∧
      r = Normal (Rejected
            (Error "Your account is linked to a provider that isn't supported.")) ∧
      calls w' = fetched
  | Some method =>
      method ∈ supportedPopupSignInMethods ∧
      (∃ before after,
         methods = before ++ method :: after ∧
         ∀ p, p ∈ before → p ∉ supportedPopupSignInMethods) ∧
      ∃ c, c ∈ [GoogleAuthProvider; FacebookAuthProvider; GithubAuthProvider] ∧
           PROVIDER_ID c = method ∧
           let linkedProvider :=
             setCustomParameters [("login_hint", mail)] (new c) in
           match sdk_signInWithPopup sdk fetched linkedProvider with
           | Fulfilled result =>
               r = Normal (Fulfilled None) ∧
               calls w' =
                 fetched ++ [CallSignInWithPopup linkedProvider;
                             CallLinkWithCredential (user result) cred]
           | Rejected e2 =>
               r = Normal (Rejected e2) ∧
               calls w' = fetched ++ [CallSignInWithPopup linkedProvider]
           | Pending =>
               r = Normal Pending ∧
               calls w' = fetched ++ [CallSignInWithPopup linkedProvider]
           end
  end.
Proof.
  intros Hr providerObj Hpop Hcode Hmail Hne Hcred Hfetch fetched r w'.
  pose proof (accountExists_Some e mail cred Hcode Hmail Hne Hcred) as Hacc.
  pose proof (signInWithProvider_conflict sdk provider options providerObj0
                e mail cred w Hr Hpop Hacc) as Hrun.
  subst r w'. rewrite Hrun. clear Hrun. fold providerObj.
  set (w1 := {| store := reducer (store w) loadingPatch;
                calls := calls w ++ [CallGetAuth; CallUseDeviceLanguage;
                                     CallSignInWithPopup providerObj] |}).
  assert (Hf : calls w1 ++ [CallFetchSignInMethodsForEmail mail] = fetched).
  { subst fetched w1. cbn [calls]. rewrite <- app_assoc. reflexivity. }
  clearbody fetched.
  unfold async, bind.
  destruct (firstPopupProviderMethod methods) as [method|] eqn:Hfind.
  - destruct (firstPopupProviderMethod_Some _ _ Hfind) as [Hsup Hfirst].
    destruct (supported_getProvider _ Hsup) as (_ & c & Hc & Hid & Hget).
    rewrite (recover_supported sdk mail cred methods method c w1 Hfetch Hfind Hget).
    rewrite Hf. cbn zeta.
    split.
    + destruct (sdk_signInWithPopup sdk fetched _) as [result|e2|];
        cbn [fst snd calls store]; apply loadingPatch_store.
    + split; [exact Hsup|]. split; [exact Hfirst|].
      exists c. split; [exact Hc|]. split; [exact Hid|].
      destruct (sdk_signInWithPopup sdk fetched _) as [result|e2|];
        cbn [fst snd calls store]; split; reflexivity.
  - rewrite (recover_unsupported sdk mail cred methods w1 Hfetch Hfind).
    rewrite Hf. cbn [fst snd calls store]. split; [apply loadingPatch_store|].
    split; [by apply firstPopupProviderMethod_None|].
    split; reflexivity.
Qed.

(** C1 run on a concrete SDK: the account of ann@example.com signs in with
    password or github, and the twitter popup conflicts. *)
Lemma C1_witness_github :
  let r := signInWithProvider (scriptedSdk ["password"; "github.com"])
             (PStr "twitter") None freshWorld in
  store r.2 !! "error" = store freshWorld !! "error" ∧
  "github.com" ∈ supportedPopupSignInMethods ∧
  (∃ before after,
     ["password"; "github.com"] = before ++ "github.com" :: after ∧
     ∀ p, p ∈ before → p ∉ supportedPopupSignInMethods) ∧
  ∃ c, c ∈ [GoogleAuthProvider; FacebookAuthProvider; GithubAuthProvider] ∧
       PROVIDER_ID c = "github.com" ∧
       r.1 = Normal (Fulfilled None) ∧
       calls r.2 =
         [CallGetAuth; CallUseDeviceLanguage;
          CallSignInWithPopup (new TwitterAuthProvider);
          CallFetchSignInMethodsForEmail "ann@example.com"] ++
         [CallSignInWithPopup
            (setCustomParameters [("login_hint", "ann@example.com")] (new c));
          CallLinkWithCredential ann pendingCredential].
Proof.
  exact (C1_account_exists_recovery
           (scriptedSdk ["password"; "github.com"]) (PStr "twitter") None
           (new TwitterAuthProvider) (conflictError "ann@example.com")
           "ann@example.com" pendingCredential ["password"; "github.com"]
           freshWorld eq_refl eq_refl eq_refl eq_refl
           ltac:(discriminate) eq_refl eq_refl).
Defined.

(** The same conflict for an account that only signs in with a password:
    the call rejects and [error] stays absent. *)
Example unsupported_method_rejects :
  let r := signInWithProvider (scriptedSdk ["password"]) (PStr "twitter") None
             freshWorld in
  r.1 = Normal (Rejected
          (Error "Your account is linked to a provider that isn't supported.")) ∧
  store r.2 !! "error" = None ∧
  store r.2 !! "loading" = Some (VBool true) ∧
  calls r.2 =
    [CallGetAuth; CallUseDeviceLanguage;
     CallSignInWithPopup (new TwitterAuthProvider);
     CallFetchSignInMethodsForEmail "ann@example.com"].
Proof. repeat split; reflexivity. Qed.

(** C10: on the recovery branch, when the second popup succeeds, the call
    resolves with [null]; the only patch it has sent is the
    [{ loading: true }] of its first lines, so [loading] is true and [error]
    is as before; the link call is the last one made and its answer is
    never looked at: any other answer gives the same promise and the same
    world. *)
Theorem C10_recovery_success_resolves_null (sdk : Sdk) (provider : ProviderArg)
    (options : option Options) (providerObj0 : AuthProvider) (e : JsError)
    (mail : string) (cred : AuthCredential) (methods : list string)
    (method : string) (c : ProviderClass) (result : UserCredential) (w : World) :
  resolveProvider provider = inr providerObj0 →
  let providerObj := attachScopes provider (requestedScopes options) providerObj0 in
  sdk_signInWithPopup sdk (calls w ++ [CallGetAuth; CallUseDeviceLanguage])
    providerObj = Rejected e →
  code e = Some "auth/account-exists-with-different-credential" →
  email e = Some mail → mail ≠ "" → credential e = Some cred →
  sdk_fetchSignInMethodsForEmail sdk
    (calls w ++ [CallGetAuth; CallUseDeviceLanguage;
                 CallSignInWithPopup providerObj]) mail = Fulfilled methods →
  firstPopupProviderMethod methods = Some method →
  getProvider method = inr (new c) →
  let linkedProvider := setCustomParameters [("login_hint", mail)] (new c) in
  sdk_signInWithPopup sdk
    (calls w ++ [CallGetAuth; CallUseDeviceLanguage;
                 CallSignInWithPopup providerObj;
                 CallFetchSignInMethodsForEmail mail])
    linkedProvider = Fulfilled result →
  let end_of_call :=
    {| store := reducer (store w) loadingPatch;
       calls := calls w ++
         [CallGetAuth; CallUseDeviceLanguage;
          CallSignInWithPopup providerObj;
          CallFetchSignInMethodsForEmail mail;
          CallSignInWithPopup linkedProvider;
          CallLinkWithCredential (user result) cred] |} in
  signInWithProvider sdk provider options w =
    (Normal (Fulfilled None), end_of_call) ∧
  store end_of_call !! "loading" = Some (VBool true) ∧
  store end_of_call !! "error" = store w !! "error" ∧
  ∀ link,
    signInWithProvider (withLink sdk link) provider options w =
      (Normal (Fulfilled None), end_of_call).
Proof.
  intros Hr providerObj Hpop Hcode Hmail Hne Hcred Hfetch Hfind Hget
    linkedProvider Hpop2 end_of_call.
  pose proof (accountExists_Some e mail cred Hcode Hmail Hne Hcred) as Hacc.
  set (w1 := {| store := reducer (store w) loadingPatch;
                calls := calls w ++ [CallGetAuth; CallUseDeviceLanguage;
                                     CallSignInWithPopup providerObj] |}).
  assert (Hf : calls w1 ++ [CallFetchSignInMethodsForEmail mail] =
               calls w ++ [CallGetAuth; CallUseDeviceLanguage;
                           CallSignInWithPopup providerObj;
                           CallFetchSignInMethodsForEmail mail]).
  { subst w1. cbn [calls]. rewrite <- app_assoc. reflexivity. }
  assert (Hany : ∀ sdk',
            sdk_signInWithPopup sdk' = sdk_signInWithPopup sdk →
            sdk_fetchSignInMethodsForEmail sdk' =
              sdk_fetchSignInMethodsForEmail sdk →
            signInWithProvider sdk' provider options w =
              (Normal (Fulfilled None), end_of_call)).
  { intros sdk' Hsame_popup Hsame_fetch.
    rewrite (signInWithProvider_conflict sdk' provider options providerObj0
               e mail cred w Hr); [|by rewrite Hsame_popup|exact Hacc].
    fold providerObj w1. unfold async, bind.
    rewrite (recover_supported sdk' mail cred methods method c w1);
      [|by rewrite Hsame_fetch|exact Hfind|exact Hget].
    rewrite Hf, Hsame_popup. fold linkedProvider. rewrite Hpop2.
    unfold ret, end_of_call. cbn [store w1].
    rewrite <- app_assoc. reflexivity. }
  split; [by apply Hany|].
  split; [apply loadingPatch_store|].
  split; [apply loadingPatch_store|].
  intros link. by apply Hany.
Qed.

(** C10 run on a concrete SDK whose [linkWithCredential] rejects. *)
Lemma C10_witness_link_rejected :
  sdk_linkWithCredential (scriptedSdk ["github.com"])
    [] ann pendingCredential = Rejected wrongPassword ∧
  signInWithProvider (scriptedSdk ["github.com"]) (PStr "google") None
    freshWorld =
    (Normal (Fulfilled None),
     {| store := reducer (store freshWorld) loadingPatch;
        calls := calls freshWorld ++
          [CallGetAuth; CallUseDeviceLanguage;
           CallSignInWithPopup (new GoogleAuthProvider);
           CallFetchSignInMethodsForEmail "ann@example.com";
           CallSignInWithPopup
             (setCustomParameters [("login_hint", "ann@example.com")]
                (new GithubAuthProvider));
           CallLinkWithCredential ann pendingCredential] |}).
Proof.
  split; [reflexivity|].
  exact (proj1 (C10_recovery_success_resolves_null
           (scriptedSdk ["github.com"]) (PStr "google") None
           (new GoogleAuthProvider) (conflictError "ann@example.com")
           "ann@example.com" pendingCredential ["github.com"] "github.com"
           GithubAuthProvider {| user := ann; operationType := "signIn" |}
           freshWorld eq_refl eq_refl eq_refl eq_refl
           ltac:(discriminate) eq_refl eq_refl eq_refl eq_refl eq_refl)).
Defined.

(** ** What each operation does with a rejection *)

(** C3 (counterexample): [signOut] has no handler.  When the SDK rejects,
    the rejection reaches the caller, [error] is never written and
    [loading] is still true. *)
Lemma C3_counterexample_signOut :
  sdk_signOut (scriptedSdk []) (calls freshWorld ++ [CallGetAuth]) =
    Rejected wrongPassword ∧
  fst (signOut (scriptedSdk []) freshWorld) = Normal (Rejected wrongPassword) ∧
  store (snd (signOut (scriptedSdk []) freshWorld)) !! "error" = None ∧
  store (snd (signOut (scriptedSdk []) freshWorld)) !! "loading" =
    Some (VBool true) ∧
  ¬ capturesRejection (signOut (scriptedSdk [])) wrongPassword freshWorld.
Proof.
  split; [reflexivity|]. split; [reflexivity|].
  split; [reflexivity|]. split; [reflexivity|].
  unfold capturesRejection.
  destruct (signOut (scriptedSdk []) freshWorld) as [r w'] eqn:Hrun.
  intros (Herr & _ & _).
  assert (Hw : store w' !! "error" = None).
  { change w' with (snd (r, w')). rewrite <- Hrun. reflexivity. }
  rewrite Hw in Herr. discriminate Herr.
Qed.

(** C3 (amended): only the email/password sign-in and the account creation
    capture a rejection: the promise is fulfilled with [undefined], [error]
    holds the rejection, [loading] is false, [user] and [firstCheck] are
    untouched.  Every other operation hands the rejection to its caller and
    never writes [error]: the reset, verification, action-code and update
    operations leave the whole store as it was, and [signOut] leaves
    [error], [user] and [firstCheck] as they were. *)
Theorem C3_rejection_policy (sdk : Sdk) (ctx : FirebaseContext) (u : User)
    (e : JsError) (w : World) :
  let h := calls w ++ [CallGetAuth] in
  let captured := reducer (reducer (store w) loadingPatch) (errorPatch e) in
  (∀ mail password,
     sdk_signInWithEmailAndPassword sdk h mail password = Rejected e →
     signInWithEmailAndPassword sdk mail password w =
       (Normal (Fulfilled None),
        {| store := captured;
           calls := h ++ [CallSignInWithEmailAndPassword mail password] |})) ∧
  (∀ mail password,
     sdk_createUserWithEmailAndPassword sdk h mail password = Rejected e →
     createUserWithEmailAndPassword sdk mail password w =
       (Normal (Fulfilled None),
        {| store := captured;
           calls := h ++ [CallCreateUserWithEmailAndPassword mail password] |})) ∧
  (captured !! "loading" = Some (VBool false) ∧
   captured !! "error" = Some (VError e) ∧
   captured !! "user" = store w !! "user" ∧
   captured !! "firstCheck" = store w !! "firstCheck") ∧
  (sdk_signOut sdk h = Rejected e →
     fst (signOut sdk w) = Normal (Rejected e) ∧
     store (snd (signOut sdk w)) !! "error" = store w !! "error" ∧
     store (snd (signOut sdk w)) !! "user" = store w !! "user" ∧
     store (snd (signOut sdk w)) !! "firstCheck" = store w !! "firstCheck") ∧
  (∀ mail,
     sdk_sendPasswordResetEmail sdk h mail = Rejected e →
     fst (sendPasswordResetEmail sdk mail w) = Normal (Rejected e) ∧
     store (snd (sendPasswordResetEmail sdk mail w)) = store w) ∧
  (∀ actionCode,
     sdk_verifyPasswordResetCode sdk h actionCode = Rejected e →
     fst (verifyPasswordResetCode sdk actionCode w) = Normal (Rejected e) ∧
     store (snd (verifyPasswordResetCode sdk actionCode w)) = store w) ∧
  (∀ actionCode newPassword,
     sdk_confirmPasswordReset sdk h actionCode newPassword = Rejected e →
     fst (confirmPasswordReset sdk actionCode newPassword w) =
       Normal (Rejected e) ∧
     store (snd (confirmPasswordReset sdk actionCode newPassword w)) = store w) ∧
  (∀ actionCode,
     sdk_applyActionCode sdk h actionCode = Rejected e →
     fst (applyActionCode sdk actionCode w) = Normal (Rejected e) ∧
     store (snd (applyActionCode sdk actionCode w)) = store w) ∧
  (∀ displayName photoURL,
     ctx_user ctx = Some u →
     sdk_updateProfile sdk (calls w) u displayName photoURL = Rejected e →
     fst (updateProfile sdk ctx displayName photoURL w) = Normal (Rejected e) ∧
     store (snd (updateProfile sdk ctx displayName photoURL w)) = store w) ∧
  (∀ newPassword,
     ctx_user ctx = Some u →
     sdk_updatePassword sdk (calls w) u newPassword = Rejected e →
     fst (updatePassword sdk ctx newPassword w) = Normal (Rejected e) ∧
     store (snd (updatePassword sdk ctx newPassword w)) = store w).
Proof.
  cbn zeta.
  split.
  { intros mail password H. unfold signInWithEmailAndPassword. run_body.
    rewrite H. reflexivity. }
  split.
  { intros mail password H. unfold createUserWithEmailAndPassword. run_body.
    rewrite H. reflexivity. }
  split; [apply errorPatch_store|].
  split.
  { intros H. unfold signOut. run_body. rewrite H.
    split; [reflexivity|]. apply loadingPatch_store. }
  split.
  { intros mail H. unfold sendPasswordResetEmail. run_body. rewrite H.
    split; reflexivity. }
  split.
  { intros actionCode H. unfold verifyPasswordResetCode. run_body. rewrite H.
    split; reflexivity. }
  split.
  { intros actionCode newPassword H. unfold confirmPasswordReset. run_body.
    rewrite H. split; reflexivity. }
  split.
  { intros actionCode H. unfold applyActionCode. run_body. rewrite H.
    split; reflexivity. }
  split.
  { intros displayName photoURL Hu H. unfold updateProfile. rewrite Hu.
    run_body. rewrite H. split; reflexivity. }
  { intros newPassword Hu H. unfold updatePassword. rewrite Hu.
    run_body. rewrite H. split; reflexivity. }
Qed.

(** C3 run on a concrete SDK: a sign-in with a wrong password, from a world
    with no user. *)
Lemma C3_witness_wrong_password :
  let r := signInWithEmailAndPassword (scriptedSdk []) "ann@example.com"
             "hunter2" freshWorld in
  r.1 = Normal (Fulfilled None) ∧
  store r.2 !! "loading" = Some (VBool false) ∧
  store r.2 !! "error" = Some (VError wrongPassword) ∧
  store r.2 !! "user" = Some VUndefined ∧
  fst (signOut (scriptedSdk []) freshWorld) = Normal (Rejected wrongPassword).
Proof.
  pose proof (C3_rejection_policy (scriptedSdk [])
                (contextValue demoApp (store freshWorld)) ann wrongPassword
                freshWorld) as (Hsign & _ & (Hl & He & Hu & _) & Hout & _).
  cbn zeta. rewrite (Hsign "ann@example.com" "hunter2" eq_refl).
  cbn [fst snd store].
  split; [reflexivity|]. split; [exact Hl|]. split; [exact He|].
  split; [rewrite Hu; reflexivity|].
  exact (proj1 (Hout eq_refl)).
Defined.

(** ** [firstCheck] *)

Create HintDb keeps.

Lemma keeps_ret {A} (a : A) : keepsFirstCheck (ret a).
Proof. intros w. reflexivity. Qed.

Lemma keeps_throw {A} (e : JsError) : keepsFirstCheck (@throw A e).
Proof. intros w. reflexivity. Qed.

Lemma keeps_bind {A B} (m : Body A) (k : A → Body B) :
  keepsFirstCheck m → (∀ a, keepsFirstCheck (k a)) → keepsFirstCheck (bind m k).
Proof.
  intros Hm Hk w. unfold bind. specialize (Hm w).
  destruct (m w) as [[a|e|] w']; cbn [snd] in *; [|exact Hm|exact Hm].
  rewrite Hk. exact Hm.
Qed.

Lemma keeps_tryCatch {A} (body : Body A) (handler : JsError → Body A) :
  keepsFirstCheck body → (∀ e, keepsFirstCheck (handler e)) →
  keepsFirstCheck (tryCatch body handler).
Proof.
  intros Hb Hh w. unfold tryCatch. specialize (Hb w).
  destruct (body w) as [[a|e|] w']; cbn [snd] in *; [exact Hb| |exact Hb].
  rewrite Hh. exact Hb.
Qed.

Lemma keeps_setState (patch : State) :
  patch !! "firstCheck" = None → keepsFirstCheck (setState patch).
Proof.
  intros Hp w. unfold setState. cbn [snd store].
  rewrite reducer_lookup, Hp. reflexivity.
Qed.

Lemma keeps_loadingPatch : keepsFirstCheck (setState loadingPatch).
Proof. apply keeps_setState. reflexivity. Qed.

Lemma keeps_errorPatch (e : JsError) : keepsFirstCheck (setState (errorPatch e)).
Proof. apply keeps_setState. reflexivity. Qed.

Lemma keeps_sdkSync (c : SdkCall) : keepsFirstCheck (sdkSync c).
Proof. intros w. reflexivity. Qed.

Lemma keeps_await {A} (c : SdkCall) (answer : list SdkCall → Promise A) :
  keepsFirstCheck (await c answer).
Proof. intros w. reflexivity. Qed.

Lemma keeps_notAwaited {A} (c : SdkCall) (answer : list SdkCall → Promise A) :
  keepsFirstCheck (notAwaited c answer).
Proof. intros w. reflexivity. Qed.

Lemma keeps_orThrow {A} (r : JsError + A) : keepsFirstCheck (orThrow r).
Proof. destruct r; intros w; reflexivity. Qed.

#[local] Hint Resolve keeps_ret keeps_throw keeps_bind keeps_tryCatch
  keeps_loadingPatch keeps_errorPatch keeps_sdkSync keeps_await
  keeps_notAwaited keeps_orThrow : keeps.

Lemma keeps_async {A} (body : Body A) (w : World) :
  keepsFirstCheck body →
  store (snd (async body w)) !! "firstCheck" = store w !! "firstCheck".
Proof.
  intros Hb. unfold async. specialize (Hb w).
  destruct (body w) as [p w']. exact Hb.
Qed.

Lemma keeps_recover (sdk : Sdk) (mail : string) (cred : AuthCredential) :
  keepsFirstCheck (recover sdk mail cred).
Proof.
  unfold recover. apply keeps_bind; [auto with keeps|].
  intros providers.
  destruct (firstPopupProviderMethod providers) as [method|];
    [|auto with keeps].
  destruct (String.eqb method ""); [auto with keeps|].
  apply keeps_bind; [auto with keeps|]. intros linkedProvider0.
  cbn zeta. apply keeps_bind; auto with keeps.
Qed.

(** No facade operation writes [firstCheck]. *)
Lemma facade_keeps_firstCheck (sdk : Sdk) (ctx : FirebaseContext)
    (f : Facade) (c : FacadeCall) (w : World) :
  useFirebaseAuth sdk (Some ctx) = Normal f →
  store (runFacadeCall f c w) !! "firstCheck" = store w !! "firstCheck".
Proof.
  intros [= <-].
  destruct c; cbn [runFacadeCall fa_signInWithProvider
    fa_signInWithEmailAndPassword fa_signOut fa_createUserWithEmailAndPassword
    fa_sendPasswordResetEmail fa_verifyPasswordResetCode
    fa_confirmPasswordReset fa_applyActionCode fa_updateProfile
    fa_updatePassword]; apply keeps_async.
  - repeat (apply keeps_bind; [auto with keeps|intros ?]).
    cbn zeta. apply keeps_tryCatch; [auto with keeps|]. intros e.
    apply keeps_bind; [|auto with keeps].
    destruct (accountExists e) as [[mail cred]|];
      [apply keeps_recover|auto with keeps].
  - auto 8 with keeps.
  - auto 8 with keeps.
  - auto 8 with keeps.
  - auto with keeps.
  - auto with keeps.
  - auto with keeps.
  - auto with keeps.
  - destruct (ctx_user ctx); auto with keeps.
  - destruct (ctx_user ctx); auto with keeps.
Qed.

Lemma step_firstCheck (sdk : Sdk) (app : FirebaseApp) (w : World) (ev : Event) :
  store (step sdk app w ev) !! "firstCheck" =
    if isNotification ev then Some (VBool true)
    else store w !! "firstCheck".
Proof.
  destruct ev as [u|c]; cbn [step isNotification].
  - unfold onAuthStateChangedCallback, setState. cbn [snd store].
    rewrite reducer_lookup. reflexivity.
  - cbn [useFirebaseAuth].
    apply (facade_keeps_firstCheck sdk (contextValue app (store w))).
    reflexivity.
Qed.

Lemma run_firstCheck (sdk : Sdk) (app : FirebaseApp) (evs : list Event) (w : World) :
  store (run sdk app w evs) !! "firstCheck" =
    if existsb isNotification evs then Some (VBool true)
    else store w !! "firstCheck".
Proof.
  unfold run. revert w. induction evs as [|ev evs IH]; intros w; [reflexivity|].
  cbn [foldl existsb]. rewrite IH, step_firstCheck.
  destruct (isNotification ev); cbn [orb]; [|reflexivity].
  destruct (existsb isNotification evs); reflexivity.
Qed.

Lemma mounted_firstCheck (firebaseCurrentUser : option User) :
  store (mounted firebaseCurrentUser) !! "firstCheck" = Some (VBool false).
Proof. destruct firebaseCurrentUser; reflexivity. Qed.

(** C6: after any sequence of notifications and facade calls, [firstCheck]
    is true if a notification has arrived and is otherwise what it was.  So
    once it is true nothing sets it back, and from mount it is false up to
    the first notification and true ever after. *)
Theorem C6_firstCheck_never_reverts (sdk : Sdk) (app : FirebaseApp)
    (w : World) (evs : list Event) :
  store (run sdk app w evs) !! "firstCheck" =
    (if existsb isNotification evs then Some (VBool true)
     else store w !! "firstCheck") ∧
  (store w !! "firstCheck" = Some (VBool true) →
   store (run sdk app w evs) !! "firstCheck" = Some (VBool true)) ∧
  (∀ ev, store w !! "firstCheck" = Some (VBool true) →
         store (step sdk app w ev) !! "firstCheck" = Some (VBool true)) ∧
  (∀ firebaseCurrentUser,
     store (run sdk app (mounted firebaseCurrentUser) evs) !! "firstCheck" =
       Some (VBool (existsb isNotification evs))) ∧
  (∀ firebaseCurrentUser u after,
     store (run sdk app (mounted firebaseCurrentUser)
              (evs ++ AuthStateChanged u :: after)) !! "firstCheck" =
       Some (VBool true)).
Proof.
  split; [apply run_firstCheck|].
  split.
  { intros Hw. rewrite run_firstCheck, Hw.
    destruct (existsb isNotification evs); reflexivity. }
  split.
  { intros ev Hw. rewrite step_firstCheck, Hw.
    destruct (isNotification ev); reflexivity. }
  split.
  { intros cu. rewrite run_firstCheck, mounted_firstCheck.
    destruct (existsb isNotification evs); reflexivity. }
  intros cu u after. rewrite run_firstCheck.
  rewrite existsb_app. cbn [existsb isNotification].
  rewrite orb_true_r. reflexivity.
Qed.

(** C6 run on a concrete trace: mount, a notification, then a failed
    sign-in, a sign-out and a second notification with no user. *)
Lemma C6_witness_trace :
  let w := run (scriptedSdk []) demoApp freshWorld [AuthStateChanged (Some ann)] in
  store w !! "firstCheck" = Some (VBool true) ∧
  store (run (scriptedSdk []) demoApp w
           [FacadeCalled (DoSignInWithEmailAndPassword "ann@example.com" "hunter2");
            FacadeCalled DoSignOut;
            AuthStateChanged None;
            FacadeCalled (DoSignInWithProvider (PStr "password") None)])
    !! "firstCheck" = Some (VBool true).
Proof.
  cbn zeta. split; [reflexivity|].
  exact (proj1 (proj2 (C6_firstCheck_never_reverts (scriptedSdk []) demoApp
                         (run (scriptedSdk []) demoApp freshWorld
                            [AuthStateChanged (Some ann)])
                         [FacadeCalled (DoSignInWithEmailAndPassword
                                          "ann@example.com" "hunter2");
                          FacadeCalled DoSignOut;
                          AuthStateChanged None;
                          FacadeCalled (DoSignInWithProvider (PStr "password")
                                          None)]))
           eq_refl).
Defined.

(** ** The reducer as an algebra of patches *)

(** Two dispatches amount to one dispatch of the merged patch; the empty
    patch changes nothing; dispatching a patch twice is dispatching it
    once. *)
Theorem reducer_compose (s p1 p2 : State) :
  reducer (reducer s p1) p2 = reducer s (reducer p1 p2) ∧
  reducer s ∅ = s ∧
  reducer (reducer s p1) p1 = reducer s p1.
Proof.
  unfold reducer. split; [|split].
  - apply (assoc_L (∪)).
  - apply (left_id_L ∅ (∪)).
  - rewrite (assoc_L (∪)). f_equal. apply (idemp_L (∪)).
Qed.

Lemma useReducedState_app (s : State) (ps qs : list State) :
  useReducedState s (ps ++ qs) = useReducedState (useReducedState s ps) qs.
Proof. unfold useReducedState. apply foldl_app. Qed.

Lemma useReducedState_dom (ps : list State) (s : State) :
  dom (useReducedState s ps) = dom s ∪ ⋃ (dom <$> ps).
Proof.
  unfold useReducedState. revert s.
  induction ps as [|p ps IH]; intros s; cbn [foldl fmap list_fmap union_list].
  - set_solver.
  - rewrite IH. unfold reducer. rewrite dom_union_L. set_solver.
Qed.

(** No dispatch removes a key: the keys after any sequence of patches are
    those of the initial state and of the patches, so a field that was set
    stays set (possibly to [undefined]) for ever. *)
Theorem reducer_never_unsets (s p : State) (ps : list State) :
  dom (reducer s p) = dom s ∪ dom p ∧
  dom (useReducedState s ps) = dom s ∪ ⋃ (dom <$> ps) ∧
  dom s ⊆ dom (useReducedState s ps).
Proof.
  split; [unfold reducer; rewrite dom_union_L; set_solver|].
  split; [apply useReducedState_dom|].
  rewrite useReducedState_dom. set_solver.
Qed.

Lemma useReducedState_untouched (field : string) (ps : list State) (s : State) :
  Forall (λ q : State, q !! field = None) ps →
  useReducedState s ps !! field = s !! field.
Proof.
  unfold useReducedState. revert s.
  induction ps as [|p ps IH]; intros s Hall; [reflexivity|].
  apply Forall_cons in Hall as [Hp Hps]. cbn [foldl].
  rewrite (IH _ Hps), reducer_lookup, Hp. reflexivity.
Qed.

(** After any sequence of dispatches a field holds the value given by the
    last patch that mentions it. *)
Theorem useReducedState_last_write (s : State) (before after : list State)
    (p : State) (field : string) (v : JsVal) :
  p !! field = Some v →
  Forall (λ q : State, q !! field = None) after →
  useReducedState s (before ++ p :: after) !! field = Some v.
Proof.
  intros Hp Hafter.
  rewrite useReducedState_app. unfold useReducedState at 1. cbn [foldl].
  fold (useReducedState (reducer (useReducedState s before) p) after).
  rewrite (useReducedState_untouched field after _ Hafter).
  rewrite reducer_lookup, Hp. reflexivity.
Qed.

(** A failed sign-in's patch, then a notification, then a new attempt:
    [error] still holds what the failed sign-in wrote. *)
Lemma useReducedState_last_write_witness :
  useReducedState (initialState None)
    ([loadingPatch] ++ errorPatch wrongPassword
       :: [authStatePatch None; loadingPatch]) !! "error" =
    Some (VError wrongPassword).
Proof.
  apply (useReducedState_last_write (initialState None) [loadingPatch]
           [authStatePatch None; loadingPatch] (errorPatch wrongPassword)
           "error" (VError wrongPassword)).
  - reflexivity.
  - repeat constructor.
Defined.

(** ** Mount *)

(** After mount [loading] is true exactly when the SDK had no current user;
    [user] is seeded from the SDK, [firstCheck] is false and [error] is
    absent. *)
Theorem mounted_state (firebaseCurrentUser : option User) :
  let w := mounted firebaseCurrentUser in
  store w !! "loading" = Some (VBool (negb (bool_decide (is_Some firebaseCurrentUser)))) ∧
  store w !! "user" = Some (userOrUndefined firebaseCurrentUser) ∧
  store w !! "firstCheck" = Some (VBool false) ∧
  store w !! "error" = None ∧
  wellFormed (store w).
Proof.
  destruct firebaseCurrentUser as [u|]; cbn zeta;
    (do 4 (split; [reflexivity|])); unfold wellFormed.
  - split; [by exists false|]. split; [by exists false|].
    split; [by exists (Some u)|]. split; [by left|].
    change (store (mounted (Some u))) with (initialState (Some u)).
    unfold initialState. rewrite !dom_insert_L, dom_singleton_L. set_solver.
  - split; [by exists true|]. split; [by exists false|].
    split; [by exists None|]. split; [by left|].
    change (store (mounted None)) with (reducer (initialState None) loadingPatch).
    unfold reducer, loadingPatch, initialState.
    rewrite dom_union_L, !dom_insert_L, !dom_singleton_L. set_solver.
Qed.

(** ** Branches of the recovery path that cannot be taken *)

(** Whatever the SDK lists as sign-in methods, a method returned by [find]
    is not the empty string and [getProvider] has a case for it: after a
    successful [find] neither the falsy test of line 227 nor the [default]
    of [getProvider] (line 217) can throw. *)
Theorem found_method_has_provider (providers : list string) (method : string) :
  firstPopupProviderMethod providers = Some method →
  String.eqb method "" = false ∧
  (∃ c, getProvider method = inr (new c) ∧ PROVIDER_ID c = method) ∧
  ∀ msg, getProvider method ≠ inl (Error msg).
Proof.
  intros Hfind.
  destruct (firstPopupProviderMethod_Some _ _ Hfind) as [Hsup _].
  destruct (supported_getProvider _ Hsup) as (Hne & c & _ & Hid & Hget).
  split; [exact Hne|]. split; [by exists c|].
  intros msg. rewrite Hget. discriminate.
Qed.

Lemma found_method_has_provider_witness :
  String.eqb "facebook.com" "" = false ∧
  (∃ c, getProvider "facebook.com" = inr (new c) ∧
        PROVIDER_ID c = "facebook.com") ∧
  ∀ msg, getProvider "facebook.com" ≠ inl (Error msg).
Proof.
  exact (found_method_has_provider
           ["password"; "emailLink"; "facebook.com"; "google.com"]
           "facebook.com" eq_refl).
Defined.

(** ** The other paths of signInWithProvider *)

(** The call up to the popup, for a provider that resolves. *)
Lemma signInWithProvider_popup (sdk : Sdk) (provider : ProviderArg)
    (options : option Options) (providerObj0 : AuthProvider) (w : World) :
  resolveProvider provider = inr providerObj0 →
  let providerObj := attachScopes provider (requestedScopes options) providerObj0 in
  let w1 := {| store := reducer (store w) loadingPatch;
               calls := calls w ++ [CallGetAuth; CallUseDeviceLanguage;
                                    CallSignInWithPopup providerObj] |} in
  signInWithProvider sdk provider options w =
    match sdk_signInWithPopup sdk
            (calls w ++ [CallGetAuth; CallUseDeviceLanguage]) providerObj with
    | Fulfilled userCredential => (Normal (Fulfilled (Some userCredential)), w1)
    | Rejected e =>
        match accountExists e with
        | Some (mail, cred) => async (recover sdk mail cred ;; ret None) w1
        | None =>
            (Normal (Fulfilled None),
             {| store := reducer (reducer (store w) loadingPatch) (errorPatch e);
                calls := calls w1 |})
        end
    | Pending => (Normal Pending, w1)
    end.
Proof.
  intros Hr. cbn zeta. unfold signInWithProvider. run_body. rewrite Hr.
  run_body.
  destruct (sdk_signInWithPopup sdk _ _) as [c|e|]; [reflexivity| |reflexivity].
  destruct (accountExists e) as [[mail cred]|]; reflexivity.
Qed.

(** When the popup succeeds the promise is fulfilled with the credential the
    SDK returned.  The call has then made three SDK calls and one dispatch,
    [{ loading: true }]: it does not reset [loading] itself and it leaves
    [error], [user] and [firstCheck] as they were. *)
Theorem signInWithProvider_success (sdk : Sdk) (provider : ProviderArg)
    (options : option Options) (providerObj0 : AuthProvider)
    (userCredential : UserCredential) (w : World) :
  resolveProvider provider = inr providerObj0 →
  let providerObj := attachScopes provider (requestedScopes options) providerObj0 in
  sdk_signInWithPopup sdk (calls w ++ [CallGetAuth; CallUseDeviceLanguage])
    providerObj = Fulfilled userCredential →
  let w' := snd (signInWithProvider sdk provider options w) in
  fst (signInWithProvider sdk provider options w) =
    Normal (Fulfilled (Some userCredential)) ∧
  calls w' = calls w ++ [CallGetAuth; CallUseDeviceLanguage;
                         CallSignInWithPopup providerObj] ∧
  store w' !! "loading" = Some (VBool true) ∧
  store w' !! "error" = store w !! "error" ∧
  store w' !! "user" = store w !! "user" ∧
  store w' !! "firstCheck" = store w !! "firstCheck".
Proof.
  intros Hr providerObj Hpop. cbn zeta.
  rewrite (signInWithProvider_popup sdk provider options providerObj0 w Hr).
  cbn zeta. fold providerObj. rewrite Hpop. cbn [fst snd calls store].
  split; [reflexivity|]. split; [reflexivity|]. apply loadingPatch_store.
Qed.

Lemma signInWithProvider_success_witness :
  fst (signInWithProvider acceptingSdk (PStr "google") None freshWorld) =
    Normal (Fulfilled (Some annCredential)) ∧
  calls (snd (signInWithProvider acceptingSdk (PStr "google") None freshWorld)) =
    calls freshWorld ++ [CallGetAuth; CallUseDeviceLanguage;
                         CallSignInWithPopup (new GoogleAuthProvider)].
Proof.
  pose proof (signInWithProvider_success acceptingSdk (PStr "google") None
                (new GoogleAuthProvider) annCredential freshWorld
                eq_refl eq_refl) as (Hres & Hcalls & _).
  split; [exact Hres|exact Hcalls].
Defined.

(** The guard of line 201 fails as soon as the code is another one, or the
    email is missing or empty, or the credential is missing. *)
Lemma accountExists_None (e : JsError) :
  code e ≠ Some "auth/account-exists-with-different-credential" ∨
  email e = None ∨ email e = Some "" ∨ credential e = None →
  accountExists e = None.
Proof.
  unfold accountExists. intros H.
  destruct (email e) as [mail|]; [|reflexivity].
  destruct (credential e) as [cred|]; [|reflexivity].
  destruct H as [H|[H|[H|H]]]; try discriminate H.
  - rewrite bool_decide_eq_false_2 by exact H.
    rewrite andb_false_r. reflexivity.
  - injection H as ->. reflexivity.
Qed.

(** When the popup is rejected with anything but a complete account
    conflict (another code, or a conflict lacking a non-empty email or a
    credential), the error is stored in [error], [loading] is set back to
    false, the promise is fulfilled with [null], and no further SDK call is
    made. *)
Theorem signInWithProvider_other_failure (sdk : Sdk) (provider : ProviderArg)
    (options : option Options) (providerObj0 : AuthProvider) (e : JsError)
    (w : World) :
  resolveProvider provider = inr providerObj0 →
  let providerObj := attachScopes provider (requestedScopes options) providerObj0 in
  sdk_signInWithPopup sdk (calls w ++ [CallGetAuth; CallUseDeviceLanguage])
    providerObj = Rejected e →
  (code e ≠ Some "auth/account-exists-with-different-credential" ∨
   email e = None ∨ email e = Some "" ∨ credential e = None) →
  let w' := snd (signInWithProvider sdk provider options w) in
  fst (signInWithProvider sdk provider options w) = Normal (Fulfilled None) ∧
  calls w' = calls w ++ [CallGetAuth; CallUseDeviceLanguage;
                         CallSignInWithPopup providerObj] ∧
  store w' !! "loading" = Some (VBool false) ∧
  store w' !! "error" = Some (VError e) ∧
  store w' !! "user" = store w !! "user" ∧
  store w' !! "firstCheck" = store w !! "firstCheck".
Proof.
  intros Hr providerObj Hpop Hguard. cbn zeta.
  rewrite (signInWithProvider_popup sdk provider options providerObj0 w Hr).
  cbn zeta. fold providerObj.
  rewrite Hpop, (accountExists_None e Hguard). cbn [fst snd calls store].
  split; [reflexivity|]. split; [reflexivity|]. apply errorPatch_store.
Qed.

(** A conflict error that carries no credential is stored like any other. *)
Lemma signInWithProvider_other_failure_witness :
  let e := {| message := "conflict";
              code := Some "auth/account-exists-with-different-credential";
              email := Some "ann@example.com";
              credential := None |} in
  let r := signInWithProvider (popupSdk (Rejected e) Pending) (PStr "github")
             None freshWorld in
  r.1 = Normal (Fulfilled None) ∧
  store r.2 !! "error" = Some (VError e) ∧
  store r.2 !! "loading" = Some (VBool false).
Proof.
  cbn zeta.
  pose proof (signInWithProvider_other_failure
                (popupSdk (Rejected
                   {| message := "conflict";
                      code := Some "auth/account-exists-with-different-credential";
                      email := Some "ann@example.com";
                      credential := None |}) Pending)
                (PStr "github") None (new GithubAuthProvider) _ freshWorld
                eq_refl eq_refl
                (or_intror (or_intror (or_intror eq_refl))))
    as (Hres & _ & Hload & Herr & _).
  split; [exact Hres|]. split; [exact Herr|exact Hload].
Defined.

(** When the popup never settles, neither does the call: the promise stays
    pending, [loading] stays true and [error] is not written. *)
Theorem signInWithProvider_popup_pending (sdk : Sdk) (provider : ProviderArg)
    (options : option Options) (providerObj0 : AuthProvider) (w : World) :
  resolveProvider provider = inr providerObj0 →
  let providerObj := attachScopes provider (requestedScopes options) providerObj0 in
  sdk_signInWithPopup sdk (calls w ++ [CallGetAuth; CallUseDeviceLanguage])
    providerObj = Pending →
  let w' := snd (signInWithProvider sdk provider options w) in
  fst (signInWithProvider sdk provider options w) = Normal Pending ∧
  calls w' = calls w ++ [CallGetAuth; CallUseDeviceLanguage;
                         CallSignInWithPopup providerObj] ∧
  store w' !! "loading" = Some (VBool true) ∧
  store w' !! "error" = store w !! "error".
Proof.
  intros Hr providerObj Hpop. cbn zeta.
  rewrite (signInWithProvider_popup sdk provider options providerObj0 w Hr).
  cbn zeta. fold providerObj. rewrite Hpop. cbn [fst snd calls store].
  split; [reflexivity|]. split; [reflexivity|].
  split; apply loadingPatch_store.
Qed.

Lemma signInWithProvider_popup_pending_witness :
  fst (signInWithProvider (popupSdk Pending Pending) (PStr "yahoo") None
         freshWorld) = Normal Pending ∧
  store (snd (signInWithProvider (popupSdk Pending Pending) (PStr "yahoo") None
                freshWorld)) !! "loading" = Some (VBool true).
Proof.
  pose proof (signInWithProvider_popup_pending (popupSdk Pending Pending)
                (PStr "yahoo") None (new (OAuthProvider "yahoo.com"))
                freshWorld eq_refl eq_refl) as (Hres & _ & Hload & _).
  split; [exact Hres|exact Hload].
Defined.

(** On the recovery branch, when the lookup of the sign-in methods is
    rejected, the rejection reaches the caller: no second popup is opened,
    no credential is linked, [error] is not written and [loading] stays
    true. *)
Theorem signInWithProvider_fetch_rejected (sdk : Sdk) (provider : ProviderArg)
    (options : option Options) (providerObj0 : AuthProvider) (e e2 : JsError)
    (mail : string) (cred : AuthCredential) (w : World) :
  resolveProvider provider = inr providerObj0 →
  let providerObj := attachScopes provider (requestedScopes options) providerObj0 in
  sdk_signInWithPopup sdk (calls w ++ [CallGetAuth; CallUseDeviceLanguage])
    providerObj = Rejected e →
  code e = Some "auth/account-exists-with-different-credential" →
  email e = Some mail → mail ≠ "" → credential e = Some cred →
  sdk_fetchSignInMethodsForEmail sdk
    (calls w ++ [CallGetAuth; CallUseDeviceLanguage;
                 CallSignInWithPopup providerObj]) mail = Rejected e2 →
  let w' := snd (signInWithProvider sdk provider options w) in
  fst (signInWithProvider sdk provider options w) = Normal (Rejected e2) ∧
  calls w' = calls w ++ [CallGetAuth; CallUseDeviceLanguage;
                         CallSignInWithPopup providerObj;
                         CallFetchSignInMethodsForEmail mail] ∧
  store w' !! "loading" = Some (VBool true) ∧
  store w' !! "error" = store w !! "error".
Proof.
  intros Hr providerObj Hpop Hcode Hmail Hne Hcred Hfetch. cbn zeta.
  pose proof (accountExists_Some e mail cred Hcode Hmail Hne Hcred) as Hacc.
  rewrite (signInWithProvider_conflict sdk provider options providerObj0
             e mail cred w Hr Hpop Hacc).
  fold providerObj. unfold recover. run_body. rewrite Hfetch.
  cbn [fst snd calls store].
  split; [reflexivity|]. split; [reflexivity|].
  split; apply loadingPatch_store.
Qed.

Lemma signInWithProvider_fetch_rejected_witness :
  fst (signInWithProvider
         (popupSdk (Rejected (conflictError "ann@example.com"))
            (Rejected wrongPassword))
         (PStr "facebook") None freshWorld) = Normal (Rejected wrongPassword) ∧
  store (snd (signInWithProvider
                (popupSdk (Rejected (conflictError "ann@example.com"))
                   (Rejected wrongPassword))
                (PStr "facebook") None freshWorld)) !! "error" = None.
Proof.
  pose proof (signInWithProvider_fetch_rejected
                (popupSdk (Rejected (conflictError "ann@example.com"))
                   (Rejected wrongPassword))
                (PStr "facebook") None (new FacebookAuthProvider)
                (conflictError "ann@example.com") wrongPassword
                "ann@example.com" pendingCredential freshWorld
                eq_refl eq_refl eq_refl eq_refl ltac:(discriminate) eq_refl
                eq_refl) as (Hres & _ & _ & Herr).
  split; [exact Hres|]. rewrite Herr. reflexivity.
Defined.

(** ** Caller-supplied provider objects *)

Lemma foldl_addScope_class (l : list string) (p : AuthProvider) :
  providerClass (foldl addScope p l) = providerClass p ∧
  customParameters (foldl addScope p l) = customParameters p.
Proof.
  revert p. induction l as [|a l IH]; intros p; [done|].
  cbn [foldl]. destruct (IH (addScope p a)) as [-> ->]. done.
Qed.

Lemma addScope_scopes (p : AuthProvider) (scope x : string) :
  x ∈ scopes (addScope p scope) ↔ x ∈ scopes p ∨ x = scope.
Proof.
  split.
  - unfold addScope. cbn [scopes].
    destruct (existsb (String.eqb scope) (scopes p)); [by left|].
    rewrite elem_of_app, list_elem_of_singleton. tauto.
  - intros [Hx| ->]; [by apply addScope_keeps|apply addScope_adds].
Qed.

Lemma foldl_addScope_scopes (l : list string) (p : AuthProvider) (x : string) :
  x ∈ scopes (foldl addScope p l) ↔ x ∈ scopes p ∨ x ∈ l.
Proof.
  revert p. induction l as [|a l IH]; intros p; cbn [foldl].
  - rewrite elem_of_nil. tauto.
  - rewrite IH, addScope_scopes, elem_of_cons. tauto.
Qed.

(** A provider object passed by the caller is never refused and is the
    object that reaches the popup.  If it is an [OAuthProvider] it then
    carries its own scopes and the requested ones, and nothing else about it
    has changed; an object of any other class (a [GoogleAuthProvider], say)
    reaches the popup exactly as it was passed, without the requested
    scopes. *)
Theorem signInWithProvider_caller_object (sdk : Sdk) (p : AuthProvider)
    (options : option Options) (w : World) :
  let providerObj := attachScopes (PObj p) (requestedScopes options) p in
  (∃ rest,
     calls (snd (signInWithProvider sdk (PObj p) options w)) =
       calls w ++ [CallGetAuth; CallUseDeviceLanguage;
                   CallSignInWithPopup providerObj] ++ rest) ∧
  providerClass providerObj = providerClass p ∧
  customParameters providerObj = customParameters p ∧
  match providerClass p with
  | OAuthProvider _ =>
      ∀ x, x ∈ scopes providerObj ↔ x ∈ scopes p ∨ x ∈ requestedScopes options
  | _ => providerObj = p
  end.
Proof.
  cbn zeta. split.
  { apply (signInWithProvider_opens_popup sdk (PObj p)). reflexivity. }
  unfold attachScopes, instanceofOAuthProvider.
  destruct (providerClass p) eqn:Hc;
    try (split; [exact Hc|]; split; reflexivity).
  destruct (foldl_addScope_class (requestedScopes options) p) as [Hcl Hcp].
  split; [by rewrite Hcl|]. split; [exact Hcp|].
  intros x. apply foldl_addScope_scopes.
Qed.

(** ** What a facade call can do to the store *)

Ltac outcome_done :=
  run_body; unfold facadeOutcome;
  lazymatch goal with
  | |- ?s = ?s ∨ _ => left; reflexivity
  | |- _ ∨ ?s = ?s ∨ _ => right; left; reflexivity
  | |- _ ∨ _ ∨ ∃ e, reducer _ (errorPatch ?e0) = _ =>
      right; right; exists e0; reflexivity
  end.

Ltac settle :=
  run_body;
  repeat (match goal with
          | |- context [match ?x with
                        | Fulfilled _ => _ | Rejected _ => _ | Pending => _
                        end] => destruct x
          end; run_body);
  outcome_done.

Lemma recover_store (sdk : Sdk) (mail : string) (cred : AuthCredential) (w : World) :
  store (snd (recover sdk mail cred w)) = store w.
Proof.
  unfold recover. run_body.
  destruct (sdk_fetchSignInMethodsForEmail sdk _ _) as [ms|e1|]; [|done|done].
  destruct (firstPopupProviderMethod ms) as [m|]; [|done].
  destruct (String.eqb m ""); [done|].
  destruct (getProvider m) as [e2|lp]; [done|]. run_body.
  destruct (sdk_signInWithPopup sdk _ _) as [c2|e2|]; done.
Qed.

Lemma signInWithProvider_outcome (sdk : Sdk) (provider : ProviderArg)
    (options : option Options) (w : World) :
  facadeOutcome (store w) (store (snd (signInWithProvider sdk provider options w))).
Proof.
  destruct (resolveProvider provider) as [e|providerObj0] eqn:Hr.
  - rewrite (signInWithProvider_unrecognized sdk provider options e w Hr).
    right. left. reflexivity.
  - rewrite (signInWithProvider_popup sdk provider options providerObj0 w Hr).
    cbn zeta.
    destruct (sdk_signInWithPopup sdk _ _) as [c|e|]; cbn [snd store];
      [right; left; reflexivity| |right; left; reflexivity].
    destruct (accountExists e) as [[mail cred]|]; cbn [snd store];
      [|right; right; exists e; reflexivity].
    unfold async, bind.
    match goal with
    | |- context [recover sdk mail cred ?w1] =>
        pose proof (recover_store sdk mail cred w1) as Hs;
        destruct (recover sdk mail cred w1) as [[[]|e2|] w2]
    end; cbn [snd store ret] in *; rewrite Hs; right; left; reflexivity.
Qed.

(** A facade call leaves the store as it was, or has dispatched
    [{ loading: true }], or has dispatched it and then
    [{ error: e, loading: false }]; the reset, verification, action-code
    and update operations always leave it as it was. *)
Theorem facade_call_outcome (sdk : Sdk) (app : FirebaseApp) (c : FacadeCall)
    (w : World) :
  facadeOutcome (store w) (store (step sdk app w (FacadeCalled c))) ∧
  match c with
  | DoSendPasswordResetEmail _ | DoVerifyPasswordResetCode _
  | DoConfirmPasswordReset _ _ | DoApplyActionCode _
  | DoUpdateProfile _ _ | DoUpdatePassword _ =>
      store (step sdk app w (FacadeCalled c)) = store w
  | _ => True
  end.
Proof.
  cbn [step useFirebaseAuth].
  destruct c; cbn [runFacadeCall fa_signInWithProvider
    fa_signInWithEmailAndPassword fa_signOut fa_createUserWithEmailAndPassword
    fa_sendPasswordResetEmail fa_verifyPasswordResetCode
    fa_confirmPasswordReset fa_applyActionCode fa_updateProfile
    fa_updatePassword].
  - split; [apply signInWithProvider_outcome|exact I].
  - split; [|exact I]. unfold signInWithEmailAndPassword. settle.
  - split; [|exact I]. unfold signOut. settle.
  - split; [|exact I]. unfold createUserWithEmailAndPassword. settle.
  - unfold sendPasswordResetEmail. split; [settle|by run_body].
  - unfold verifyPasswordResetCode. split; [settle|by run_body].
  - unfold confirmPasswordReset. split; [settle|by run_body].
  - unfold applyActionCode. split; [settle|by run_body].
  - unfold updateProfile. cbn [ctx_user contextValue].
    destruct (userOf _); (split; [settle|by run_body]).
  - unfold updatePassword. cbn [ctx_user contextValue].
    destruct (userOf _); (split; [settle|by run_body]).
Qed.

(** ** Invariants of the store over the life of the provider *)

Lemma facadeOutcome_fields (s s' : State) :
  facadeOutcome s s' →
  s' !! "user" = s !! "user" ∧
  s' !! "firstCheck" = s !! "firstCheck" ∧
  (s' !! "error" = s !! "error" ∨ ∃ e, s' !! "error" = Some (VError e)) ∧
  (s' !! "loading" = s !! "loading" ∨ ∃ b, s' !! "loading" = Some (VBool b)).
Proof.
  intros [->|[->|[e ->]]].
  - repeat split; by left.
  - destruct (loadingPatch_store s) as (Hl & He & Hu & Hf).
    split; [exact Hu|]. split; [exact Hf|]. split; [by left|].
    right. by exists true.
  - destruct (errorPatch_store s e) as (Hl & He & Hu & Hf).
    split; [exact Hu|]. split; [exact Hf|]. split; [right; by exists e|].
    right. by exists false.
Qed.

Lemma step_user (sdk : Sdk) (app : FirebaseApp) (w : World) (ev : Event) :
  store (step sdk app w ev) !! "user" =
    match ev with
    | AuthStateChanged u => Some (userOrUndefined u)
    | FacadeCalled _ => store w !! "user"
    end.
Proof.
  destruct ev as [u|c].
  - cbn [step]. unfold onAuthStateChangedCallback, setState. cbn [snd store].
    rewrite reducer_lookup. reflexivity.
  - apply facadeOutcome_fields, facade_call_outcome.
Qed.

Lemma run_no_notification (sdk : Sdk) (app : FirebaseApp) (evs : list Event)
    (w : World) :
  existsb isNotification evs = false →
  store (run sdk app w evs) !! "user" = store w !! "user".
Proof.
  unfold run. revert w. induction evs as [|ev evs IH]; intros w H; [reflexivity|].
  cbn [existsb] in H. apply orb_false_iff in H as [Hev Hevs].
  cbn [foldl]. rewrite (IH _ Hevs), step_user.
  destruct ev; [discriminate Hev|reflexivity].
Qed.

Lemma run_app (sdk : Sdk) (app : FirebaseApp) (w : World) (evs1 evs2 : list Event) :
  run sdk app w (evs1 ++ evs2) = run sdk app (run sdk app w evs1) evs2.
Proof. unfold run. apply foldl_app. Qed.

(** The [user] field mirrors the auth-state stream and nothing else: after
    any trace it is the user of the last notification, whatever facade
    operations ran before or after it, and while no notification arrives it
    is what it was.  Right after a notification [loading] is false and
    [firstCheck] is true. *)
Theorem user_mirrors_last_notification (sdk : Sdk) (app : FirebaseApp)
    (w : World) (before after : list Event) (u : option User) :
  existsb isNotification after = false →
  store (run sdk app w (before ++ AuthStateChanged u :: after)) !! "user" =
    Some (userOrUndefined u) ∧
  store (run sdk app w after) !! "user" = store w !! "user" ∧
  store (run sdk app w (before ++ [AuthStateChanged u])) !! "loading" =
    Some (VBool false) ∧
  store (run sdk app w (before ++ [AuthStateChanged u])) !! "firstCheck" =
    Some (VBool true).
Proof.
  intros Hafter. split; [|split; [|split]].
  - rewrite run_app. unfold run at 1. cbn [foldl].
    fold (run sdk app (step sdk app (run sdk app w before) (AuthStateChanged u))
            after).
    rewrite (run_no_notification sdk app after _ Hafter).
    apply (step_user sdk app _ (AuthStateChanged u)).
  - by apply run_no_notification.
  - rewrite run_app. unfold run at 1. cbn [foldl step].
    unfold onAuthStateChangedCallback, setState. cbn [snd store].
    rewrite reducer_lookup. reflexivity.
  - rewrite run_app. unfold run at 1. cbn [foldl step].
    unfold onAuthStateChangedCallback, setState. cbn [snd store].
    rewrite reducer_lookup. reflexivity.
Qed.

Lemma user_mirrors_last_notification_witness :
  store (run (scriptedSdk []) demoApp freshWorld
           ([FacadeCalled (DoSignInWithEmailAndPassword "ann@example.com" "x")]
            ++ AuthStateChanged (Some ann)
            :: [FacadeCalled DoSignOut;
                FacadeCalled (DoUpdatePassword "hunter3")])) !! "user" =
    Some (VUser ann).
Proof.
  exact (proj1 (user_mirrors_last_notification (scriptedSdk []) demoApp
                  freshWorld
                  [FacadeCalled (DoSignInWithEmailAndPassword
                                   "ann@example.com" "x")]
                  [FacadeCalled DoSignOut;
                   FacadeCalled (DoUpdatePassword "hunter3")]
                  (Some ann) eq_refl)).
Defined.

Lemma step_error (sdk : Sdk) (app : FirebaseApp) (w : World) (ev : Event) :
  store (step sdk app w ev) !! "error" = store w !! "error" ∨
  ∃ e, isNotification ev = false ∧
       store (step sdk app w ev) !! "error" = Some (VError e).
Proof.
  destruct ev as [u|c].
  - left. cbn [step]. unfold onAuthStateChangedCallback, setState.
    cbn [snd store]. rewrite reducer_lookup. reflexivity.
  - destruct (facadeOutcome_fields _ _ (proj1 (facade_call_outcome sdk app c w)))
      as (_ & _ & [He|[e He]] & _); [by left|].
    right. exists e. split; [reflexivity|exact He].
Qed.

(** Nothing ever clears [error].  Once an error is stored, every later
    state still holds an error (the same, or the one of a later failure),
    even after successful operations and notifications; and a trace made
    only of notifications leaves the field exactly as it was. *)
Theorem error_is_never_cleared (sdk : Sdk) (app : FirebaseApp) (w : World)
    (evs : list Event) (e0 : JsError) :
  store w !! "error" = Some (VError e0) →
  (∃ e, store (run sdk app w evs) !! "error" = Some (VError e)) ∧
  (forallb isNotification evs = true →
   store (run sdk app w evs) !! "error" = Some (VError e0)).
Proof.
  unfold run. revert w e0.
  induction evs as [|ev evs IH]; intros w e0 Hw.
  - split; [by exists e0|]. intros _. exact Hw.
  - cbn [foldl forallb].
    destruct (step_error sdk app w ev) as [Hsame|(e & Hfacade & He)].
    + rewrite Hw in Hsame. destruct (IH _ _ Hsame) as [Hex Hnot].
      split; [exact Hex|]. intros H. apply andb_true_iff in H as [_ H].
      by apply Hnot.
    + destruct (IH _ _ He) as [Hex _]. split; [exact Hex|].
      rewrite Hfacade. intros H. discriminate H.
Qed.

(** A failed sign-in, then a successful sign-in through the popup and the
    notification that follows it: [error] still holds the first failure. *)
Lemma error_is_never_cleared_witness :
  let w := run acceptingSdk demoApp
             {| store := reducer (store freshWorld) (errorPatch wrongPassword);
                calls := [] |}
             [FacadeCalled (DoSignInWithProvider (PStr "google") None);
              AuthStateChanged (Some ann)] in
  ∃ e, store w !! "error" = Some (VError e).
Proof.
  exact (proj1 (error_is_never_cleared acceptingSdk demoApp
                  {| store := reducer (store freshWorld) (errorPatch wrongPassword);
                     calls := [] |}
                  [FacadeCalled (DoSignInWithProvider (PStr "google") None);
                   AuthStateChanged (Some ann)]
                  wrongPassword eq_refl)).
Defined.

Lemma wellFormed_dispatch (s p : State) :
  wellFormed s →
  p = loadingPatch ∨ (∃ e, p = errorPatch e) ∨ (∃ u, p = authStatePatch u) →
  wellFormed (reducer s p).
Proof.
  intros (Hl & Hf & Hu & He & Hd) Hp. unfold wellFormed.
  rewrite !reducer_lookup.
  assert (Hdom : dom p ⊆ ({[ "user"; "loading"; "firstCheck"; "error" ]} : gset string)).
  { destruct Hp as [->|[[e ->]|[u ->]]];
      unfold loadingPatch, errorPatch, authStatePatch;
      rewrite ?dom_insert_L, ?dom_singleton_L; set_solver. }
  assert (Hdom' : dom (reducer s p) ⊆
                  ({[ "user"; "loading"; "firstCheck"; "error" ]} : gset string)).
  { unfold reducer. rewrite dom_union_L. set_solver. }
  destruct Hp as [->|[[e ->]|[u ->]]].
  - split; [by exists true|]. split; [exact Hf|]. split; [exact Hu|].
    split; [exact He|exact Hdom'].
  - split; [by exists false|]. split; [exact Hf|]. split; [exact Hu|].
    split; [right; by exists e|exact Hdom'].
  - split; [by exists false|]. split; [by exists true|].
    split; [by exists u|]. split; [exact He|exact Hdom'].
Qed.

Lemma step_wellFormed (sdk : Sdk) (app : FirebaseApp) (w : World) (ev : Event) :
  wellFormed (store w) → wellFormed (store (step sdk app w ev)).
Proof.
  intros Hw. destruct ev as [u|c].
  - cbn [step]. unfold onAuthStateChangedCallback, setState. cbn [snd store].
    apply wellFormed_dispatch; [exact Hw|]. right. right. by exists u.
  - destruct (proj1 (facade_call_outcome sdk app c w)) as [->|[->|[e ->]]].
    + exact Hw.
    + apply wellFormed_dispatch; [exact Hw|by left].
    + apply wellFormed_dispatch; [|right; left; by exists e].
      apply wellFormed_dispatch; [exact Hw|by left].
Qed.

(** From mount on, whatever notifications arrive and whatever facade
    operations run, the state keeps its shape: [loading] and [firstCheck]
    hold booleans, [user] holds a user or [undefined], [error] is absent or
    holds an error, and there is no other key. *)
Theorem state_stays_well_formed (sdk : Sdk) (app : FirebaseApp)
    (firebaseCurrentUser : option User) (evs : list Event) :
  wellFormed (store (run sdk app (mounted firebaseCurrentUser) evs)).
Proof.
  assert (H : ∀ w, wellFormed (store w) → wellFormed (store (run sdk app w evs))).
  { unfold run. induction evs as [|ev evs IH]; intros w Hw; [exact Hw|].
    cbn [foldl]. apply IH. by apply step_wellFormed. }
  apply H. apply mounted_state.
Qed.

(** A trace made only of password-reset, verification and action-code
    operations never touches the state, whatever the SDK answers: these
    operations do not even raise [loading]. *)
Theorem pass_through_leaves_state (sdk : Sdk) (app : FirebaseApp) (w : World)
    (evs : list Event) :
  forallb isPassThrough evs = true →
  store (run sdk app w evs) = store w.
Proof.
  unfold run. revert w. induction evs as [|ev evs IH]; intros w H; [reflexivity|].
  cbn [forallb] in H. apply andb_true_iff in H as [Hev Hevs].
  cbn [foldl]. rewrite (IH _ Hevs).
  destruct ev as [u|c]; [discriminate Hev|].
  destruct c; try discriminate Hev;
    match goal with
    | |- context [FacadeCalled ?c] =>
        exact (proj2 (facade_call_outcome sdk app c w))
    end.
Qed.

Lemma pass_through_leaves_state_witness :
  store (run (scriptedSdk []) demoApp freshWorld
           [FacadeCalled (DoSendPasswordResetEmail "ann@example.com");
            FacadeCalled (DoVerifyPasswordResetCode "oob-code");
            FacadeCalled (DoConfirmPasswordReset "oob-code" "hunter3");
            FacadeCalled (DoApplyActionCode "oob-code")]) = store freshWorld.
Proof.
  exact (pass_through_leaves_state (scriptedSdk []) demoApp freshWorld
           [FacadeCalled (DoSendPasswordResetEmail "ann@example.com");
            FacadeCalled (DoVerifyPasswordResetCode "oob-code");
            FacadeCalled (DoConfirmPasswordReset "oob-code" "hunter3");
            FacadeCalled (DoApplyActionCode "oob-code")] eq_refl).
Defined.

(** ** Successful operations and the notification that follows them *)

(** A successful email/password sign-in fulfils the promise with the SDK's
    credential and leaves [loading] true: only the next auth-state
    notification sets it back to false, installs the user and raises
    [firstCheck].  An [error] stored by an earlier failure is still there
    after both. *)
Theorem signIn_success_then_notification (sdk : Sdk) (app : FirebaseApp)
    (mail password : string) (userCredential : UserCredential)
    (u : option User) (w : World) :
  sdk_signInWithEmailAndPassword sdk (calls w ++ [CallGetAuth]) mail password =
    Fulfilled userCredential →
  let w1 := run sdk app w
              [FacadeCalled (DoSignInWithEmailAndPassword mail password)] in
  let w2 := run sdk app w
              [FacadeCalled (DoSignInWithEmailAndPassword mail password);
               AuthStateChanged u] in
  signInWithEmailAndPassword sdk mail password w =
    (Normal (Fulfilled (Some userCredential)), w1) ∧
  calls w1 = calls w ++ [CallGetAuth;
                         CallSignInWithEmailAndPassword mail password] ∧
  store w1 = reducer (store w) loadingPatch ∧
  store w1 !! "loading" = Some (VBool true) ∧
  store w2 !! "loading" = Some (VBool false) ∧
  store w2 !! "user" = Some (userOrUndefined u) ∧
  store w2 !! "firstCheck" = Some (VBool true) ∧
  store w2 !! "error" = store w !! "error" ∧
  calls w2 = calls w1.
Proof.
  intros Hsdk. cbn zeta. unfold run. cbn [foldl step useFirebaseAuth
    runFacadeCall fa_signInWithEmailAndPassword].
  unfold onAuthStateChangedCallback, signInWithEmailAndPassword.
  run_body. rewrite Hsdk. cbn [fst snd store calls].
  rewrite !reducer_lookup.
  repeat split; reflexivity.
Qed.

Lemma signIn_success_then_notification_witness :
  let w := {| store := reducer (store freshWorld) (errorPatch wrongPassword);
              calls := [] |} in
  store (run acceptingSdk demoApp w
           [FacadeCalled (DoSignInWithEmailAndPassword "ann@example.com" "pw");
            AuthStateChanged (Some ann)]) !! "error" =
    Some (VError wrongPassword).
Proof.
  cbn zeta.
  pose proof (signIn_success_then_notification acceptingSdk demoApp
                "ann@example.com" "pw" annCredential (Some ann)
                {| store := reducer (store freshWorld) (errorPatch wrongPassword);
                   calls := [] |} eq_refl)
    as (_ & _ & _ & _ & _ & _ & _ & Herr & _).
  rewrite Herr. reflexivity.
Defined.

(** Account creation behaves like the sign-in: on success the promise holds
    the new credential, one SDK call was made after [getAuth], and the only
    dispatch was [{ loading: true }]. *)
Theorem createUser_success (sdk : Sdk) (mail password : string)
    (userCredential : UserCredential) (w : World) :
  sdk_createUserWithEmailAndPassword sdk (calls w ++ [CallGetAuth]) mail
    password = Fulfilled userCredential →
  createUserWithEmailAndPassword sdk mail password w =
    (Normal (Fulfilled (Some userCredential)),
     {| store := reducer (store w) loadingPatch;
        calls := calls w ++ [CallGetAuth;
                             CallCreateUserWithEmailAndPassword mail password] |}) ∧
  reducer (store w) loadingPatch !! "error" = store w !! "error" ∧
  reducer (store w) loadingPatch !! "user" = store w !! "user".
Proof.
  intros Hsdk. unfold createUserWithEmailAndPassword. run_body. rewrite Hsdk.
  split; [reflexivity|]. split; apply loadingPatch_store.
Qed.

Lemma createUser_success_witness :
  fst (createUserWithEmailAndPassword acceptingSdk "bob@example.com" "pw"
         freshWorld) = Normal (Fulfilled (Some annCredential)).
Proof.
  rewrite (proj1 (createUser_success acceptingSdk "bob@example.com" "pw"
                    annCredential freshWorld eq_refl)).
  reflexivity.
Defined.

(** [signOut] settles exactly as the SDK's sign-out does, after one
    dispatch of [{ loading: true }]: it never clears [user] itself.  The
    user goes away, and [loading] comes back to false, with the
    notification that follows a successful sign-out. *)
Theorem signOut_then_notification (sdk : Sdk) (app : FirebaseApp) (w : World) :
  let w1 := run sdk app w [FacadeCalled DoSignOut] in
  let w2 := run sdk app w [FacadeCalled DoSignOut; AuthStateChanged None] in
  signOut sdk w = (Normal (sdk_signOut sdk (calls w ++ [CallGetAuth])), w1) ∧
  calls w1 = calls w ++ [CallGetAuth; CallSignOut] ∧
  store w1 !! "user" = store w !! "user" ∧
  store w1 !! "loading" = Some (VBool true) ∧
  store w2 !! "user" = Some VUndefined ∧
  store w2 !! "loading" = Some (VBool false) ∧
  ctx_user (contextValue app (store w2)) = None.
Proof.
  cbn zeta. unfold run. cbn [foldl step useFirebaseAuth runFacadeCall fa_signOut].
  unfold onAuthStateChangedCallback, signOut. run_body.
  unfold contextValue, getField. cbn [ctx_user].
  rewrite !reducer_lookup.
  repeat split; reflexivity.
Qed.

